(** * DriverNotif: the booking-offer lifecycle of the driver dashboard

    A shallow embedding of the dashboard screen
    ([app/(dashboard)/index.tsx]), its API client ([services/api.ts]), the
    list and stack projections ([BookingListView.tsx],
    [BookingSliderView.tsx]) and the detail modal
    ([BookingDetailModal.tsx]), followed by the properties of the
    booking-offer lifecycle that hold (or fail) on that code.

    Modelling conventions.
    - A JS number that holds a time (epoch milliseconds, whole seconds) is a
      [Z]; [Math.floor (a / 1000)] on such integers is [a / 1000] on [Z]
      (floor division).  A JS number that holds a fare or a percentage is
      an exact rational [Q].  The lengths of the swipe gesture, where the
      code compares against a product of doubles, are IEEE binary64 numbers
      ([float]).
    - [expires_at] and [created_at] hold the value that
      [new Date(s).getTime()] yields for the well-formed timestamp [s] of the
      wire payload.
    - In [DashboardScreen] an [async] handler is run to completion in one
      step, the replies of the HTTP calls it awaits being its extra
      arguments; [AsyncDashboard] splits the handlers at their [await]s, so
      that a reply may arrive after any number of later events.
    - An effect of a render runs together with the state update that caused
      the render.
    - [useState] cells are fields of [World]; effects a test could observe
      (HTTP requests, toasts, console lines, the live polling interval) are
      fields of [World] too. *)

From Stdlib Require Import ZArith QArith Qminmax List String Bool Lia Lqa.
From Stdlib Require Import Floats.PrimFloat Floats.SpecFloat Floats.FloatOps.
Import ListNotations.

Local Open Scope string_scope.
Local Open Scope Z_scope.

(** ** JavaScript helpers *)

Module Js.

(** [a || b] where [a] is a string that may be undefined: the empty string
    and [undefined] are falsy. *)
Definition or_string (a : option string) (b : string) : string :=
  match a with
  | Some s => if String.eqb s "" then b else s
  | None => b
  end.

(** [a || []] where [a] is an array that may be undefined (every array,
    the empty one included, is truthy). *)
Definition or_nil {A : Type} (a : option (list A)) : list A :=
  match a with
  | Some l => l
  | None => []
  end.

(** [l.slice(s, e)] for [0 <= s <= e]. *)
Definition slice {A : Type} (s e : nat) (l : list A) : list A :=
  firstn (e - s) (skipn s l).

(** [l.map((x, index) => f x index)]. *)
Fixpoint mapi_from {A B : Type} (i : nat) (f : A -> nat -> B) (l : list A)
  : list B :=
  match l with
  | [] => []
  | x :: l' => f x i :: mapi_from (S i) f l'
  end.

Definition mapi {A B : Type} (f : A -> nat -> B) (l : list A) : list B :=
  mapi_from 0 f l.

(** [s.endsWith(suffix)]. *)
Definition endsWith (suffix s : string) : bool :=
  let n := String.length s in
  let m := String.length suffix in
  Nat.leb m n && String.eqb (String.substring (n - m) m s) suffix.

(** [a > b] on amounts. *)
Definition gt (a b : Q) : bool := negb (Qle_bool a b).

(** The rational a double stands for, when it is finite. *)
Definition exact (x : float) : option Q :=
  match Prim2SF x with
  | S754_zero _ => Some 0%Q
  | S754_finite negative m e =>
      Some ((if negative then -1 else 1) * inject_Z (Zpos m) * 2 ^ e)%Q
  | S754_infinity _ | S754_nan => None
  end.


(** [a || b] where [a] is a number that may be undefined: [undefined] and
    0 are falsy. *)
Definition or_number (a : option Q) (b : Q) : Q :=
  match a with
  | Some x => if Qeq_bool x 0 then b else x
  | None => b
  end.

Definition or_int (a : option Z) (b : Z) : Z :=
  match a with
  | Some x => if Z.eqb x 0 then b else x
  | None => b
  end.

End Js.

(** ** Data model *)

(** [interface Booking] (the union of the fields the three components
    declare). *)
Record Booking : Type := mkBooking {
  id : string;
  fare : Q;
  distance : Q;
  pickup_location : string;
  dropoff_location : string;
  passenger_name : string;
  passenger_phone : option string;
  passenger_rating : option Q;
  expires_at : Z;
  created_at : Z;
  estimated_duration : option Z
}.

(** ** services/api.ts *)

Module Api.

Inductive Body : Type :=
| EmptyBody
| OnlineStatusBody (is_online : bool).

(** One call of [apiClient.get] or [apiClient.post]. *)
Inductive Request : Type :=
| GET (url : string)
| POST (url : string) (body : Body).

(** What [axios] rejects with, as far as the [catch] blocks look at it. *)
Inductive AxiosError : Type :=
| WithResponse (detail message : option string)
| WithRequest
| WithNeither
| NotAxios.

Inductive Reply (A : Type) : Type :=
| Fulfilled (data : A)
| Failed (e : AxiosError).
Arguments Fulfilled {A} data.
Arguments Failed {A} e.

(** How the promise an API function returns settles. *)
Inductive Settled (A : Type) : Type :=
| Resolved (a : A)
| Thrown (message : string).
Arguments Resolved {A} a.
Arguments Thrown {A} message.

(** The shared [catch] block: the message of the [Error] it throws. *)
Definition rethrow (fallback : string) (e : AxiosError) : string :=
  match e with
  | WithResponse detail message =>
      Js.or_string detail (Js.or_string message fallback)
  | WithRequest =>
      "Unable to reach server. Please check your internet connection."
  | WithNeither | NotAxios =>
      "An unexpected error occurred. Please try again."
  end.

Record BookingsData : Type := mkBookingsData {
  bookings : option (list Booking)
}.

Definition updateOnlineStatus_request (isOnline : bool) : Request :=
  POST "/api/v1/dashboard/online-status" (OnlineStatusBody isOnline).

Definition updateOnlineStatus {A : Type} (reply : Reply A) : Settled A :=
  match reply with
  | Fulfilled data => Resolved data
  | Failed e => Thrown (rethrow "Failed to update status" e)
  end.

Definition getBookingRequests_request : Request :=
  GET "/api/v1/dashboard/booking-requests".

Definition getBookingRequests (reply : Reply BookingsData)
  : Settled (list Booking) :=
  match reply with
  | Fulfilled data => Resolved (Js.or_nil (bookings data))
  | Failed e => Thrown (rethrow "Failed to load bookings" e)
  end.

Definition acceptBooking_request (bookingId : string) : Request :=
  POST ("/api/v1/dashboard/bookings/" ++ bookingId ++ "/accept") EmptyBody.

Definition acceptBooking {A : Type} (reply : Reply A) : Settled A :=
  match reply with
  | Fulfilled data => Resolved data
  | Failed e => Thrown (rethrow "Failed to accept booking" e)
  end.

(** Whether [r] is a call of the accept endpoint, for some identifier. *)
Definition is_accept_request (r : Request) : bool :=
  match r with
  | POST url EmptyBody =>
      String.prefix "/api/v1/dashboard/bookings/" url
      && Js.endsWith "/accept" url
  | _ => false
  end.

Record StatsData : Type := mkStatsData {
  today_earnings : option Q;
  trips_completed : option Q
}.

Definition getDashboardData_request : Request :=
  GET "/api/v1/dashboard/stats".

(** How one call of an API function that reads the stored token goes: the
    lookup of the token, the first [await] inside the [try], is rejected
    and nothing is sent, or the request is sent and gets [reply]. *)
Inductive Call (A : Type) : Type :=
| LookupRejected
| Requested (reply : Reply A).
Arguments LookupRejected {A}.
Arguments Requested {A} reply.

(** [getDashboardData]: the requests it sends and how its promise
    settles. *)
Definition getDashboardData (call : Call StatsData)
  : list Request * Settled StatsData :=
  match call with
  | LookupRejected =>
      ([], Thrown (rethrow "Failed to load dashboard" NotAxios))
  | Requested (Fulfilled data) => ([getDashboardData_request], Resolved data)
  | Requested (Failed e) =>
      ([getDashboardData_request],
       Thrown (rethrow "Failed to load dashboard" e))
  end.

End Api.

(** ** State of the screen and its observable effects *)

(** [viewMode]: ['list'] or ['slider']. *)
Inductive ViewMode : Type :=
| list_view
| slider_view.

Inductive ToastType : Type :=
| toast_success
| toast_error
| toast_info.

(** One call of [Toast.show]. *)
Record Toast : Type := mkToast {
  toast_type : ToastType;
  text1 : string;
  text2 : string
}.

(** The [useState] cells of [DashboardScreen] that the booking pipeline
    reads or writes ([dashboardData] and [isLoading] are left out), the
    [currentIndex] cell of the mounted [BookingSliderView], the handle of the
    polling interval ([Some period] while a [setInterval] is live), the value
    [new Date().getTime()] read by the latest run of the countdown
    callbacks, and the logs of the calls made so far (oldest first). *)
Record World : Type := mkWorld {
  isOnline : bool;
  viewMode : ViewMode;
  bookingRequests : list Booking;
  selectedBooking : option Booking;
  isModalVisible : bool;
  currentIndex : nat;
  pollInterval : option Z;
  clock : Z;
  network : list Api.Request;
  toasts : list Toast;
  console : list string
}.

Definition setIsOnline (v : bool) (w : World) : World :=
  mkWorld v (viewMode w) (bookingRequests w) (selectedBooking w)
    (isModalVisible w) (currentIndex w) (pollInterval w) (clock w)
    (network w) (toasts w) (console w).

Definition setViewMode (v : ViewMode) (w : World) : World :=
  mkWorld (isOnline w) v (bookingRequests w) (selectedBooking w)
    (isModalVisible w) (currentIndex w) (pollInterval w) (clock w)
    (network w) (toasts w) (console w).

Definition setBookingRequests (v : list Booking) (w : World) : World :=
  mkWorld (isOnline w) (viewMode w) v (selectedBooking w)
    (isModalVisible w) (currentIndex w) (pollInterval w) (clock w)
    (network w) (toasts w) (console w).

Definition setSelectedBooking (v : option Booking) (w : World) : World :=
  mkWorld (isOnline w) (viewMode w) (bookingRequests w) v
    (isModalVisible w) (currentIndex w) (pollInterval w) (clock w)
    (network w) (toasts w) (console w).

Definition setIsModalVisible (v : bool) (w : World) : World :=
  mkWorld (isOnline w) (viewMode w) (bookingRequests w) (selectedBooking w)
    v (currentIndex w) (pollInterval w) (clock w)
    (network w) (toasts w) (console w).

Definition setCurrentIndex (v : nat) (w : World) : World :=
  mkWorld (isOnline w) (viewMode w) (bookingRequests w) (selectedBooking w)
    (isModalVisible w) v (pollInterval w) (clock w)
    (network w) (toasts w) (console w).

Definition setPollInterval (v : option Z) (w : World) : World :=
  mkWorld (isOnline w) (viewMode w) (bookingRequests w) (selectedBooking w)
    (isModalVisible w) (currentIndex w) v (clock w)
    (network w) (toasts w) (console w).

Definition setClock (v : Z) (w : World) : World :=
  mkWorld (isOnline w) (viewMode w) (bookingRequests w) (selectedBooking w)
    (isModalVisible w) (currentIndex w) (pollInterval w) v
    (network w) (toasts w) (console w).

(** The HTTP client sends [r]. *)
Definition send (r : Api.Request) (w : World) : World :=
  mkWorld (isOnline w) (viewMode w) (bookingRequests w) (selectedBooking w)
    (isModalVisible w) (currentIndex w) (pollInterval w) (clock w)
    (network w ++ [r])%list (toasts w) (console w).

Definition Toast_show (t : Toast) (w : World) : World :=
  mkWorld (isOnline w) (viewMode w) (bookingRequests w) (selectedBooking w)
    (isModalVisible w) (currentIndex w) (pollInterval w) (clock w)
    (network w) (toasts w ++ [t])%list (console w).

Definition console_error (line : string) (w : World) : World :=
  mkWorld (isOnline w) (viewMode w) (bookingRequests w) (selectedBooking w)
    (isModalVisible w) (currentIndex w) (pollInterval w) (clock w)
    (network w) (toasts w) (console w ++ [line])%list.

(** The number of calls of the accept endpoint made so far. *)
Definition accept_calls (w : World) : nat :=
  List.length (filter Api.is_accept_request (network w)).

(** ** components/dashboard/BookingListView.tsx *)

Module BookingListView.

(** [calculateTimeRemaining] of [BookingListItem]: the value it passes to
    [setTimeRemaining], with [now] the clock it reads. *)
Definition calculateTimeRemaining (now : Z) (booking : Booking) : Z :=
  let expiresAt := expires_at booking in
  Z.max 0 ((expiresAt - now) / 1000).

Definition totalTime : Q := 30%Q.

Definition progressPercentage (timeRemaining : Z) : Q :=
  ((inject_Z timeRemaining / totalTime) * 100)%Q.

(** One rendered [BookingListItem]: its React key, the booking whose fields
    it prints, the seconds it prints and the width (in percent) of its
    progress bar. *)
Record Item : Type := mkItem {
  item_key : string;
  item_booking : Booking;
  item_timeRemaining : Z;
  item_width : Q
}.

Definition BookingListItem (now : Z) (booking : Booking) : Item :=
  let timeRemaining := calculateTimeRemaining now booking in
  mkItem (id booking) booking timeRemaining (progressPercentage timeRemaining).

(** The [FlatList]: one item per element of [bookings], in order. *)
Definition BookingListView (now : Z) (bookings : list Booking) : list Item :=
  map (BookingListItem now) bookings.

End BookingListView.

(** ** components/dashboard/BookingSliderView.tsx *)

Module BookingSliderView.

Definition calculateTimeRemaining (now : Z) (booking : Booking) : Z :=
  let expiresAt := expires_at booking in
  Z.max 0 ((expiresAt - now) / 1000).

Definition totalTime : Q := 30%Q.

Definition progressPercentage (timeRemaining : Z) : Q :=
  ((inject_Z timeRemaining / totalTime) * 100)%Q.

(** What a finished swipe animation calls. *)
Inductive Callback : Type :=
| onSwipeRight
| onSwipeLeft.


(** One [Animated.spring(position, ...).start(cb)]: where the card is sent,
    the friction when given, and the callback run when it ends ([cb] also
    puts the card back at the origin). *)
Record Spring : Type := mkSpring {
  toValue : float * float;
  friction : option float;
  onEnd : option Callback
}.

Section Card.

(** [Dimensions.get('window').width]. *)
Variable SCREEN_WIDTH : float.




(** The Accept and Decline buttons of the card (second layout of the
    component): the same callbacks behind a fixed animation. *)
Definition handleAccept : Spring :=
  mkSpring ((SCREEN_WIDTH + 100)%float, 0%float) None (Some onSwipeRight).

Definition handleDecline : Spring :=
  mkSpring ((- SCREEN_WIDTH - 100)%float, 0%float) None (Some onSwipeLeft).



End Card.

(** [handleSwipeLeft]: "just move to next". *)
Definition handleSwipeLeft (w : World) : World :=
  setCurrentIndex (currentIndex w + 1)%nat w.

(** [handleSwipeRight], with the [bookings] prop and the [currentIndex] of
    the render that created the callback, and the [onAccept] prop.  One
    layout of the component hands [onAccept] the identifier, the other the
    whole booking; the screen's handler reads neither. *)
Definition handleSwipeRight (onAccept : string -> World -> World)
  (bookings : list Booking) (currentIndex_ : nat) (w : World) : World :=
  match nth_error bookings currentIndex_ with
  | Some booking =>
      let w := onAccept (id booking) w in
      setCurrentIndex (currentIndex w + 1)%nat w
  | None => w
  end.

(** One rendered [BookingCard]. *)
Record Card : Type := mkCard {
  card_key : string;
  card_booking : Booking;
  card_timeRemaining : Z;
  card_width : Q;
  isTopCard : bool
}.

Definition BookingCard (now : Z) (booking : Booking) (isTopCard_ : bool)
  : Card :=
  let timeRemaining := calculateTimeRemaining now booking in
  mkCard (id booking) booking timeRemaining (progressPercentage timeRemaining)
    isTopCard_.

(** The cards the component renders (none when [bookings] is empty). *)
Definition BookingSliderView (now : Z) (bookings : list Booking)
  (currentIndex_ : nat) : list Card :=
  match bookings with
  | [] => []
  | _ :: _ =>
      Js.mapi (fun booking index => BookingCard now booking (Nat.eqb index 1))
        (rev (Js.slice currentIndex_ (currentIndex_ + 2) bookings))
  end.

(** Whether the "All caught up!" panel is rendered (the component renders
    nothing at all when [bookings] is empty). *)
Definition allCaughtUp (bookings : list Booking) (currentIndex_ : nat)
  : bool :=
  match bookings with
  | [] => false
  | _ :: _ => Nat.leb (List.length bookings) currentIndex_
  end.

End BookingSliderView.

(** ** components/dashboard/BookingDetailModal.tsx *)

Module BookingDetailModal.

Definition calculateTimeRemaining (now : Z) (booking : Booking) : Z :=
  let expiresAt := expires_at booking in
  Z.max 0 ((expiresAt - now) / 1000).

Definition totalTime : Q := 30%Q.

Definition progressPercentage (timeRemaining : Z) : Q :=
  ((inject_Z timeRemaining / totalTime) * 100)%Q.

(** [handleAccept]: forwards the identifier when a booking is shown. *)
Definition handleAccept (onAccept : string -> World -> World)
  (booking : option Booking) (w : World) : World :=
  match booking with
  | Some b => onAccept (id b) w
  | None => w
  end.

(** What the modal shows: nothing without a booking, else the booking, its
    seconds and the width of its progress bar. *)
Definition BookingDetailModal (now : Z) (visible : bool)
  (booking : option Booking) : option (Booking * Z * Q) :=
  match booking with
  | None => None
  | Some b =>
      if visible then
        let timeRemaining := calculateTimeRemaining now b in
        Some (b, timeRemaining, progressPercentage timeRemaining)
      else None
  end.

End BookingDetailModal.

(** ** app/(dashboard)/index.tsx *)

Module DashboardScreen.

(** The polling [useEffect], with dependency list [[isOnline]].  [prev] is
    the value of [isOnline] at the previous commit.  When the value changed,
    the cleanup of the previous run clears its interval and the new run
    starts one of 5000 ms only when online. *)
Definition pollingEffect (prev : bool) (w : World) : World :=
  if Bool.eqb prev (isOnline w) then w
  else setPollInterval (if isOnline w then Some 5000 else None) w.

(** Teardown of the screen: the cleanup of the live effect runs. *)
Definition unmount (w : World) : World :=
  setPollInterval None w.

Definition fetchBookingRequests (reply : Api.Reply Api.BookingsData)
  (w : World) : World :=
  let w := send Api.getBookingRequests_request w in
  match Api.getBookingRequests reply with
  | Api.Resolved requests => setBookingRequests requests w
  | Api.Thrown message =>
      console_error ("Error fetching bookings: " ++ message) w
  end.

Definition handleToggleOnline (statusReply : Api.Reply unit)
  (fetchReply : Api.Reply Api.BookingsData) (w : World) : World :=
  let newStatus := negb (isOnline w) in
  let w0 := send (Api.updateOnlineStatus_request newStatus) w in
  match Api.updateOnlineStatus statusReply with
  | Api.Resolved _ =>
      let w1 := pollingEffect (isOnline w0) (setIsOnline newStatus w0) in
      let w2 :=
        Toast_show
          (mkToast toast_success
             (if newStatus then "You are now Online"
              else "You are now Offline")
             (if newStatus then "You can receive booking requests"
              else "You will not receive new bookings")) w1 in
      if newStatus then fetchBookingRequests fetchReply w2
      else setBookingRequests [] w2
  | Api.Thrown _ =>
      Toast_show
        (mkToast toast_error "Error" "Failed to update online status") w0
  end.

Definition handleBookingPress (booking : Booking) (w : World) : World :=
  setIsModalVisible true (setSelectedBooking (Some booking) w).

Definition handleCloseModal (w : World) : World :=
  setSelectedBooking None (setIsModalVisible false w).

(** [handleAcceptBooking]; its body is the comment "Will be implemented with
    accept booking logic" and the two setters. *)
Definition handleAcceptBooking (bookingId : string) (w : World) : World :=
  setSelectedBooking None (setIsModalVisible false w).

(** [handleAcceptBooking] of the map layout of the screen: it also
    refreshes the bookings. *)
Definition handleAcceptBooking_refresh
  (fetchReply : Api.Reply Api.BookingsData) (bookingId : string) (w : World)
  : World :=
  fetchBookingRequests fetchReply
    (setSelectedBooking None (setIsModalVisible false w)).

(** The booking area of the screen. *)
Inductive BookingArea : Type :=
| OfflineMessage
| NoBookingsMessage
| ListArea (items : list BookingListView.Item)
| SliderArea (cards : list BookingSliderView.Card).

Definition bookingArea (w : World) : BookingArea :=
  if negb (isOnline w) then OfflineMessage
  else
    match bookingRequests w with
    | [] => NoBookingsMessage
    | _ :: _ =>
        match viewMode w with
        | list_view =>
            ListArea (BookingListView.BookingListView (clock w)
                        (bookingRequests w))
        | slider_view =>
            SliderArea (BookingSliderView.BookingSliderView (clock w)
                          (bookingRequests w) (currentIndex w))
        end
    end.

(** The list projection and the stack projection of the bookings the
    screen holds, whichever is on screen. *)
Definition listProjection (w : World) : list BookingListView.Item :=
  BookingListView.BookingListView (clock w) (bookingRequests w).

Definition stackProjection (w : World) : list BookingSliderView.Card :=
  BookingSliderView.BookingSliderView (clock w) (bookingRequests w)
    (currentIndex w).

(** [BookingSliderView] is mounted exactly in the last branch of
    [bookingArea]; its [currentIndex] starts at 0 at every mount. *)
Definition sliderMounted (w : World) : bool :=
  match bookingArea w with
  | SliderArea _ => true
  | _ => false
  end.

Definition commit (w : World) : World :=
  if sliderMounted w then w else setCurrentIndex 0%nat w.

(** Whether the stack on screen has a card whose [isTopCard] prop is true
    in the current render: the card whose Accept and Decline buttons are
    enabled.  The pan responder of a card is created once and keeps the
    flag of the card's first render; [BookingSliderView.drag] models that,
    and this predicate says nothing about it. *)
Definition hasTopCard (w : World) : bool :=
  sliderMounted w && existsb BookingSliderView.isTopCard (stackProjection w).

(** The callback a card rendered in the world [rendered] was given for
    [cb]: a closure over the [bookings] prop and the [currentIndex] of that
    render.  The [onAccept] it reaches is the [handleAcceptBooking] of
    app/(dashboard)/index.tsx; the map layout of the screen passes
    [handleAcceptBooking_refresh] instead. *)
Definition cardCallback (rendered : World) (cb : BookingSliderView.Callback)
  : World -> World :=
  match cb with
  | BookingSliderView.onSwipeLeft => BookingSliderView.handleSwipeLeft
  | BookingSliderView.onSwipeRight =>
      BookingSliderView.handleSwipeRight handleAcceptBooking
        (bookingRequests rendered) (currentIndex rendered)
  end.

(** What can happen to the screen.  [ToggleOnline] and [PollTick] carry
    the replies of the requests their handlers await, and [handle] below
    runs such a handler to its end before anything else happens;
    [AsyncDashboard] lets other events in at every [await].  [SwipeLeft]
    and [SwipeRight] stand for the callback of the card that is top in the
    current render being run, by its Decline or Accept button or by a swipe
    its pan responder granted. *)
Inductive Event : Type :=
| ToggleOnline (statusReply : Api.Reply unit)
    (fetchReply : Api.Reply Api.BookingsData)
| PollTick (fetchReply : Api.Reply Api.BookingsData)
| CountdownTick (now : Z)
| ChooseView (mode : ViewMode)
| PressBooking (booking : Booking)
| CloseModal
| ModalAccept
| SwipeLeft
| SwipeRight.

Definition handle (e : Event) (w : World) : World :=
  match e with
  | ToggleOnline statusReply fetchReply =>
      handleToggleOnline statusReply fetchReply w
  | PollTick fetchReply =>
      match pollInterval w with
      | Some _ => fetchBookingRequests fetchReply w
      | None => w
      end
  | CountdownTick now => setClock now w
  | ChooseView mode => setViewMode mode w
  | PressBooking booking => handleBookingPress booking w
  | CloseModal => handleCloseModal w
  | ModalAccept =>
      if isModalVisible w then
        BookingDetailModal.handleAccept handleAcceptBooking
          (selectedBooking w) w
      else w
  | SwipeLeft =>
      if hasTopCard w then
        cardCallback w BookingSliderView.onSwipeLeft w
      else w
  | SwipeRight =>
      if hasTopCard w then
        cardCallback w BookingSliderView.onSwipeRight w
      else w
  end.

Definition step (w : World) (e : Event) : World := commit (handle e w).

Definition run (w : World) (es : list Event) : World := fold_left step es w.

(** The screen as first rendered. *)
Definition initial : World :=
  mkWorld false list_view [] None false 0%nat None 0 [] [] [].

End DashboardScreen.

(** ** app/(dashboard)/index.tsx: the handlers, await by await *)

(** [DashboardScreen.handle] runs [handleToggleOnline] and
    [fetchBookingRequests] to completion with their replies.  Here every
    [await] of a request is a point where anything else may happen first:
    a handler sends its request and is suspended, and its continuation runs
    when the reply arrives, in whatever state the screen is in by then. *)
Module AsyncDashboard.

(** A suspended handler: [handleToggleOnline] awaiting the status update it
    sent for [newStatus], or [fetchBookingRequests] awaiting the listing. *)
Inductive Pending : Type :=
| AwaitStatus (newStatus : bool)
| AwaitBookings.

Record Running : Type := mkRunning {
  world : World;
  pending : list Pending
}.

Definition remove_nth {A : Type} (n : nat) (l : list A) : list A :=
  (firstn n l ++ skipn (S n) l)%list.

(** What can happen: the driver taps the online toggle; the polling
    interval fires; the [n]-th suspended handler gets its reply; or one of
    the events of [DashboardScreen] that awaits nothing. *)
Inductive Happening : Type :=
| TapToggle
| IntervalFires
| StatusSettles (n : nat) (reply : Api.Reply unit)
| BookingsSettle (n : nat) (reply : Api.Reply Api.BookingsData)
| Other (e : DashboardScreen.Event).

(** [fetchBookingRequests] up to its [await]. *)
Definition startFetch (w : World) (suspended : list Pending) : Running :=
  mkRunning (send Api.getBookingRequests_request w)
    (suspended ++ [AwaitBookings])%list.

Definition happen (h : Happening) (r : Running) : Running :=
  let w := world r in
  match h with
  | TapToggle =>
      let newStatus := negb (isOnline w) in
      mkRunning (send (Api.updateOnlineStatus_request newStatus) w)
        (pending r ++ [AwaitStatus newStatus])%list
  | IntervalFires =>
      match pollInterval w with
      | Some _ => startFetch w (pending r)
      | None => r
      end
  | StatusSettles n reply =>
      match nth_error (pending r) n with
      | Some (AwaitStatus newStatus) =>
          let rest := remove_nth n (pending r) in
          match Api.updateOnlineStatus reply with
          | Api.Resolved _ =>
              let w1 :=
                DashboardScreen.pollingEffect (isOnline w)
                  (setIsOnline newStatus w) in
              let w2 :=
                Toast_show
                  (mkToast toast_success
                     (if newStatus then "You are now Online"
                      else "You are now Offline")
                     (if newStatus then "You can receive booking requests"
                      else "You will not receive new bookings")) w1 in
              if newStatus then startFetch w2 rest
              else mkRunning (setBookingRequests [] w2) rest
          | Api.Thrown _ =>
              mkRunning
                (Toast_show
                   (mkToast toast_error "Error"
                      "Failed to update online status") w) rest
          end
      | _ => r
      end
  | BookingsSettle n reply =>
      match nth_error (pending r) n with
      | Some AwaitBookings =>
          mkRunning
            match Api.getBookingRequests reply with
            | Api.Resolved requests => setBookingRequests requests w
            | Api.Thrown message =>
                console_error ("Error fetching bookings: " ++ message) w
            end
            (remove_nth n (pending r))
      | _ => r
      end
  | Other e =>
      match e with
      | DashboardScreen.ToggleOnline _ _ | DashboardScreen.PollTick _ => r
      | _ => mkRunning (DashboardScreen.handle e w) (pending r)
      end
  end.

Definition step (r : Running) (h : Happening) : Running :=
  let r' := happen h r in
  mkRunning (DashboardScreen.commit (world r')) (pending r').

Definition run (r : Running) (hs : list Happening) : Running :=
  fold_left step hs r.

Definition initial : Running := mkRunning DashboardScreen.initial [].

End AsyncDashboard.

(** ** app/(dashboard)/index.tsx: loading the dashboard *)

Module DashboardLoad.

(** The cells [dashboardData] and [isLoading] of [DashboardScreen], with
    the route [router.replace] was last given and the calls made. *)
Record Cells : Type := mkCells {
  todayEarnings : Q;
  tripsCompleted : Q;
  isLoading : bool;
  route : option string;
  sent : list Api.Request;
  shown : list Toast;
  logged : list string
}.

(** What [AsyncStorage.getItem('access_token')] settles to. *)
Inductive TokenLookup : Type :=
| Stored (token : option string)
| LookupFailed.

Definition initial : Cells := mkCells 0 0 true None [] [] [].

Definition loadDashboardData (call : Api.Call Api.StatsData) (c : Cells)
  : Cells :=
  let (sent_now, settled) := Api.getDashboardData call in
  let sent' := (sent c ++ sent_now)%list in
  match settled with
  | Api.Resolved data =>
      mkCells (Js.or_number (Api.today_earnings data) 0)
        (Js.or_number (Api.trips_completed data) 0)
        false (route c) sent' (shown c) (logged c)
  | Api.Thrown message =>
      mkCells (todayEarnings c) (tripsCompleted c) false (route c) sent'
        (shown c
         ++ [mkToast toast_error "Error" "Failed to load dashboard data"])%list
        (logged c ++ [("Error loading dashboard: " ++ message)%string])%list
  end.

Definition checkAuthAndLoadData (lookup : TokenLookup)
  (call : Api.Call Api.StatsData) (c : Cells) : Cells :=
  match lookup with
  | Stored token =>
      if String.eqb (Js.or_string token "") "" then
        mkCells (todayEarnings c) (tripsCompleted c) (isLoading c)
          (Some "/(auth)/login") (sent c) (shown c) (logged c)
      else loadDashboardData call c
  | LookupFailed =>
      mkCells (todayEarnings c) (tripsCompleted c) (isLoading c)
        (Some "/(auth)/login") (sent c) (shown c)
        (logged c ++ ["Auth check error:"])%list
  end.

End DashboardLoad.

(** ** The active-ride screen (second component of
    app/(dashboard)/index.tsx) *)

Module ActiveRideScreen.

Inductive RideStatus : Type :=
| en_route_pickup
| at_pickup
| en_route_dropoff
| at_dropoff.

(** [interface RouteStep]; [step_distance] is its [distance] field. *)
Record RouteStep : Type := mkRouteStep {
  instruction : string;
  step_distance : Z;
  location : string
}.

(** [bookingData]: the booking parsed from the route parameters, with the
    two further fields the screen reads. *)
Record BookingData : Type := mkBookingData {
  booking : Booking;
  tip : option Q;
  payment_method : option string
}.

(** [rideCompletionData]. *)
Record RideCompletionData : Type := mkRideCompletionData {
  completed_fare : Q;
  completed_tip : Q;
  completed_payment_method : string;
  completed_passenger_name : string;
  completed_distance : Q;
  completed_duration : Z;
  completed_passenger_rating : option Q
}.

(** The cells of the screen that the ride flow writes, the toasts shown and
    the [rideData] of every [router.push] to the ride-completed screen. *)
Record Screen : Type := mkScreen {
  rideStatus : RideStatus;
  currentInstruction : RouteStep;
  waitingMinutes : nat;
  waitingSeconds : nat;
  ride_toasts : list Toast;
  pushed : list RideCompletionData
}.

Definition initial : Screen :=
  mkScreen en_route_pickup (mkRouteStep "Turn left in 200m" 200 "Maple Avenue")
    0 0 [] [].

(** The button of the [Alert] the driver presses. *)
Inductive AlertButton : Type :=
| CancelButton
| ConfirmButton.

(** The waiting-time [useEffect], run when [rideStatus] has changed: away
    from the pickup both counters are reset (at the pickup it starts the
    one-second interval). *)
Definition waitingEffect (s : Screen) : Screen :=
  match rideStatus s with
  | at_pickup => s
  | _ =>
      mkScreen (rideStatus s) (currentInstruction s) 0 0 (ride_toasts s)
        (pushed s)
  end.

(** One run of the interval callback, which is live at the pickup only. *)
Definition waitingTick (s : Screen) : Screen :=
  match rideStatus s with
  | at_pickup =>
      if Nat.eqb (waitingSeconds s) 59 then
        mkScreen (rideStatus s) (currentInstruction s)
          (waitingMinutes s + 1) 0 (ride_toasts s) (pushed s)
      else
        mkScreen (rideStatus s) (currentInstruction s)
          (waitingMinutes s) (waitingSeconds s + 1) (ride_toasts s) (pushed s)
  | _ => s
  end.

Definition completion (bookingData : BookingData) : RideCompletionData :=
  mkRideCompletionData
    (fare (booking bookingData))
    (Js.or_number (tip bookingData) 1.5)
    (Js.or_string (payment_method bookingData) "Cash Payment")
    (passenger_name (booking bookingData))
    (distance (booking bookingData))
    (Js.or_int (estimated_duration (booking bookingData)) 22)
    (passenger_rating (booking bookingData)).

(** [handleArrived] followed by the press of one button of the alert it
    opens (it opens none once the ride is at the dropoff). *)
Definition handleArrived (bookingData : BookingData) (pressed : AlertButton)
  (s : Screen) : Screen :=
  match pressed with
  | CancelButton => s
  | ConfirmButton =>
      match rideStatus s with
      | en_route_pickup =>
          waitingEffect
            (mkScreen at_pickup (currentInstruction s) (waitingMinutes s)
               (waitingSeconds s)
               (ride_toasts s
                ++ [mkToast toast_success "Arrived"
                      "Passenger has been notified"])%list
               (pushed s))
      | at_pickup =>
          waitingEffect
            (mkScreen en_route_dropoff
               (mkRouteStep "Head to destination" 5000
                  (Js.or_string
                     (Some (dropoff_location (booking bookingData)))
                     "Destination"))
               (waitingMinutes s) (waitingSeconds s)
               (ride_toasts s
                ++ [mkToast toast_success "Ride Started"
                      "Navigate to dropoff location"])%list
               (pushed s))
      | en_route_dropoff =>
          waitingEffect
            (mkScreen at_dropoff (currentInstruction s) (waitingMinutes s)
               (waitingSeconds s)
               (ride_toasts s
                ++ [mkToast toast_success "Ride Completed"
                      "Thank you for the ride!"])%list
               (pushed s ++ [completion bookingData])%list)
      | at_dropoff => s
      end
  end.

Definition getButtonText (s : Screen) : string :=
  match rideStatus s with
  | en_route_pickup => "I've Arrived"
  | at_pickup => "Start Ride"
  | en_route_dropoff => "Complete Ride"
  | at_dropoff => "Done"
  end.

(** What can happen to the screen. *)
Inductive Event : Type :=
| PressMain (pressed : AlertButton)
| WaitingTick.

Definition step (bookingData : BookingData) (s : Screen) (e : Event)
  : Screen :=
  match e with
  | PressMain pressed => handleArrived bookingData pressed s
  | WaitingTick => waitingTick s
  end.

Definition run (bookingData : BookingData) (s : Screen) (es : list Event)
  : Screen :=
  fold_left (step bookingData) es s.

(** The position of a status in the ride. *)
Definition progress (status : RideStatus) : nat :=
  match status with
  | en_route_pickup => 0
  | at_pickup => 1
  | en_route_dropoff => 2
  | at_dropoff => 3
  end.

Definition confirmations (es : list Event) : nat :=
  List.length
    (filter (fun e => match e with
                      | PressMain ConfirmButton => true
                      | _ => false
                      end) es).

End ActiveRideScreen.

(** ** app/(dashboard)/ride-completed.tsx *)

Module RideCompletedScreen.

(** [rideData], as parsed from the route parameter. *)
Record RideData : Type := mkRideData {
  fare : option Q;
  tip : option Q;
  payment_method : option string;
  passenger_name : option string;
  distance : option Q;
  duration : option Z;
  estimated_duration : option Z
}.

(** [JSON.parse(JSON.stringify(rideCompletionData))], as far as the screen
    reads it: every field the active-ride screen wrote is present. *)
Definition received (d : ActiveRideScreen.RideCompletionData) : RideData :=
  mkRideData
    (Some (ActiveRideScreen.completed_fare d))
    (Some (ActiveRideScreen.completed_tip d))
    (Some (ActiveRideScreen.completed_payment_method d))
    (Some (ActiveRideScreen.completed_passenger_name d))
    (Some (ActiveRideScreen.completed_distance d))
    (Some (ActiveRideScreen.completed_duration d))
    None.

Definition totalFare (rideData : RideData) : Q :=
  Js.or_number (fare rideData) 0.

Definition shownTip (rideData : RideData) : Q :=
  Js.or_number (tip rideData) 0.

Definition paymentMethod (rideData : RideData) : string :=
  Js.or_string (payment_method rideData) "Cash Payment".

Definition shownDuration (rideData : RideData) : Z :=
  Js.or_int (duration rideData) (Js.or_int (estimated_duration rideData) 0).

(** Whether the "BONUS EARNED!" banner is rendered: [tip > 0]. *)
Definition bonusShown (rideData : RideData) : bool :=
  Js.gt (shownTip rideData) 0.

End RideCompletedScreen.

(** ** utils/validation.ts *)

Module Validation.

(** A character that [\D] does not match: one of 0 to 9. *)
Definition isDigit (c : Ascii.ascii) : bool :=
  Nat.leb 48 (Ascii.nat_of_ascii c) && Nat.leb (Ascii.nat_of_ascii c) 57.

(** [value.replace(/\D/g, '')], on the characters of the string. *)
Definition removeNonDigits (value : list Ascii.ascii) : list Ascii.ascii :=
  filter isDigit value.

Definition chars (s : string) : list Ascii.ascii := list_ascii_of_string s.

(** The formatting of the digits kept. *)
Definition formatDigits (numbers : list Ascii.ascii) : list Ascii.ascii :=
  let n := List.length numbers in
  if Nat.eqb n 0 then []
  else if Nat.leb n 3 then (chars "(" ++ numbers)%list
  else if Nat.leb n 6 then
    (chars "(" ++ Js.slice 0 3 numbers ++ chars ") "
     ++ skipn 3 numbers)%list
  else
    (chars "(" ++ Js.slice 0 3 numbers ++ chars ") "
     ++ Js.slice 3 6 numbers ++ chars "-" ++ Js.slice 6 10 numbers)%list.

Definition formatPhoneNumber (value : string) : string :=
  string_of_list_ascii (formatDigits (removeNonDigits (chars value))).

End Validation.

(** ** Sample data *)

Module Sample.

Definition O1 : Booking :=
  mkBooking "O1" 8.5%Q 3.2%Q "123 Main St, Downtown" "456 Park Ave, Uptown"
    "Jane Smith" (Some "+1234567890") (Some 4.8%Q) 30000 0 (Some 15).

Definition O2 : Booking :=
  mkBooking "O2" 12%Q 5%Q "9 Mill Lane" "Harbour Gate"
    "Sam Lee" None None 45000 15000 None.

(** The booking of the backend documentation: created 10:30:00 and
    expiring 10:31:00 on the same day (times relative to 10:30:00). *)
Definition documented : Booking :=
  mkBooking "507f1f77bcf86cd799439011" 8.5%Q 3.2%Q "123 Main St, Downtown"
    "456 Park Ave, Uptown" "Jane Smith" (Some "+1234567890") (Some 4.8%Q)
    60000 0 (Some 15).

Definition reply (l : list Booking) : Api.Reply Api.BookingsData :=
  Api.Fulfilled (Api.mkBookingsData (Some l)).

(** The driver went online and the first fetch returned [l]. *)
Definition online (l : list Booking) : World :=
  DashboardScreen.run DashboardScreen.initial
    [DashboardScreen.ToggleOnline (Api.Fulfilled tt) (reply l)].

(** The same, with the stack projection on screen. *)
Definition swiping (l : list Booking) : World :=
  DashboardScreen.step (online l) (DashboardScreen.ChooseView slider_view).

(** One-second countdown ticks at 1000, 2000, ..., [n] * 1000. *)
Definition ticks (n : nat) : list DashboardScreen.Event :=
  map (fun k => DashboardScreen.CountdownTick (Z.of_nat k * 1000))
    (seq 1 n).

(** The booking an active ride was opened with, the ride just after the
    driver confirmed the arrival at the pickup, and at the dropoff. *)
Definition ride : ActiveRideScreen.BookingData :=
  ActiveRideScreen.mkBookingData O1 None None.

Definition waiting : ActiveRideScreen.Screen :=
  ActiveRideScreen.run ride ActiveRideScreen.initial
    [ActiveRideScreen.PressMain ActiveRideScreen.ConfirmButton].

Definition arrived : ActiveRideScreen.Screen :=
  ActiveRideScreen.run ride ActiveRideScreen.initial
    [ActiveRideScreen.PressMain ActiveRideScreen.ConfirmButton;
     ActiveRideScreen.PressMain ActiveRideScreen.ConfirmButton;
     ActiveRideScreen.PressMain ActiveRideScreen.ConfirmButton].

End Sample.

(** * Properties *)

Import DashboardScreen.

(** ** Helper lemmas: the setters and the logs *)

Lemma gt_spec (a b : Q) : Js.gt a b = true <-> (b < a)%Q.
Proof.
  unfold Js.gt. rewrite negb_true_iff.
  split; intro H.
  - apply Qnot_le_lt. intro Hle.
    apply Qle_bool_iff in Hle. congruence.
  - destruct (Qle_bool a b) eqn:E; [|reflexivity].
    apply Qle_bool_iff in E. exfalso. exact (Qlt_not_le _ _ H E).
Qed.

(** ** The countdown *)

Section Countdown.

Variable o : Booking.

Lemma remaining_nonneg (now : Z) :
  0 <= BookingListView.calculateTimeRemaining now o.
Proof. unfold BookingListView.calculateTimeRemaining. cbv zeta. lia. Qed.

Lemma remaining_antitone (now later : Z) :
  now <= later ->
  BookingListView.calculateTimeRemaining later o
  <= BookingListView.calculateTimeRemaining now o.
Proof.
  intro H. unfold BookingListView.calculateTimeRemaining. cbv zeta.
  apply Z.max_le_compat_l.
  apply Z.div_le_mono; lia.
Qed.

Lemma remaining_zero_iff (now : Z) :
  BookingListView.calculateTimeRemaining now o = 0
  <-> expires_at o - now < 1000.
Proof.
  unfold BookingListView.calculateTimeRemaining. cbv zeta.
  split; intro H.
  - destruct (Z_lt_le_dec (expires_at o - now) 1000) as [Hlt|Hge]; [exact Hlt|].
    assert (1 <= (expires_at o - now) / 1000)
      by (apply Z.div_le_lower_bound; lia).
    lia.
  - assert ((expires_at o - now) / 1000 <= 0).
    { destruct (Z_lt_le_dec (expires_at o - now) 0) as [Hneg|Hpos].
      - assert ((expires_at o - now) / 1000 < 0)
          by (apply Z.div_lt_upper_bound; lia).
        lia.
      - rewrite Z.div_small; lia. }
    lia.
Qed.

End Countdown.

(** The seconds a rendered list item or card shows are the countdown of the
    booking it shows, at the clock of the render. *)
Lemma list_item_shows (now : Z) (bookings : list Booking)
  (item : BookingListView.Item) :
  In item (BookingListView.BookingListView now bookings) ->
  In (BookingListView.item_booking item) bookings
  /\ BookingListView.item_timeRemaining item
     = BookingListView.calculateTimeRemaining now
         (BookingListView.item_booking item).
Proof.
  unfold BookingListView.BookingListView. rewrite in_map_iff.
  intros [b [<- Hb]]. simpl. split; [exact Hb | reflexivity].
Qed.

Lemma mapi_from_in {A B : Type} (f : A -> nat -> B) (l : list A) :
  forall (i : nat) (y : B),
    In y (Js.mapi_from i f l) -> exists x k, In x l /\ y = f x k.
Proof.
  induction l as [|x l IH]; intros i y H; simpl in H.
  - contradiction.
  - destruct H as [<- | H].
    + exists x, i. split; [left; reflexivity | reflexivity].
    + destruct (IH _ _ H) as [x' [k [Hin ->]]].
      exists x', k. split; [right; exact Hin | reflexivity].
Qed.

Lemma in_firstn {A : Type} (n : nat) (l : list A) (x : A) :
  In x (firstn n l) -> In x l.
Proof.
  intro H. rewrite <- (firstn_skipn n l). apply in_or_app. left. exact H.
Qed.

Lemma slice_in {A : Type} (s e : nat) (l : list A) (x : A) :
  In x (Js.slice s e l) -> In x (skipn s l).
Proof. unfold Js.slice. apply in_firstn. Qed.

Lemma card_shows (now : Z) (bookings : list Booking) (ci : nat)
  (card : BookingSliderView.Card) :
  In card (BookingSliderView.BookingSliderView now bookings ci) ->
  In (BookingSliderView.card_booking card) (skipn ci bookings)
  /\ BookingSliderView.card_timeRemaining card
     = BookingSliderView.calculateTimeRemaining now
         (BookingSliderView.card_booking card).
Proof.
  unfold BookingSliderView.BookingSliderView.
  destruct bookings as [|b0 bs]; [contradiction|].
  unfold Js.mapi. intro H.
  apply mapi_from_in in H. destruct H as [b [k [Hin ->]]].
  simpl. split; [|reflexivity].
  apply In_rev in Hin. exact (slice_in _ _ _ _ Hin).
Qed.

(** C4. For every offer and every clock value, each of the three countdown
    computations (list item, stack card, detail modal) yields
    max(0, floor((expires_at - now) / 1000)); the value is a non-negative
    integer, it does not increase when the clock advances, it is 0 from the
    expiry time on, and a list item and a stack card rendered from the same
    state show the same seconds for the same offer. *)
Theorem C4_remaining_seconds (o : Booking) (now later : Z)
  (Hadvance : now <= later) :
  BookingListView.calculateTimeRemaining now o
    = Z.max 0 ((expires_at o - now) / 1000)
  /\ BookingSliderView.calculateTimeRemaining now o
    = Z.max 0 ((expires_at o - now) / 1000)
  /\ BookingDetailModal.calculateTimeRemaining now o
    = Z.max 0 ((expires_at o - now) / 1000)
  /\ 0 <= BookingListView.calculateTimeRemaining now o
  /\ BookingListView.calculateTimeRemaining later o
     <= BookingListView.calculateTimeRemaining now o
  /\ (expires_at o <= now ->
      BookingListView.calculateTimeRemaining now o = 0)
  /\ (forall (w : World) item card,
        In item (listProjection w) ->
        In card (stackProjection w) ->
        BookingListView.item_booking item
          = BookingSliderView.card_booking card ->
        BookingListView.item_timeRemaining item
          = BookingSliderView.card_timeRemaining card).
Proof.
  repeat split; try reflexivity.
  - apply remaining_nonneg.
  - apply remaining_antitone. exact Hadvance.
  - intro H. apply remaining_zero_iff. lia.
  - intros w item card Hi Hc Heq.
    apply list_item_shows in Hi. apply card_shows in Hc.
    destruct Hi as [_ ->]. destruct Hc as [_ ->].
    rewrite Heq. reflexivity.
Qed.

Lemma C4_remaining_seconds_witness :
  0 <= 1000
  /\ BookingListView.calculateTimeRemaining 1000 Sample.O1
     <= BookingListView.calculateTimeRemaining 0 Sample.O1.
Proof.
  split; [lia|].
  exact (proj1 (proj2 (proj2 (proj2 (proj2
           (C4_remaining_seconds Sample.O1 0 1000 ltac:(lia))))))).
Defined.

(** ** The progress bar *)

Lemma progress_over_100 (timeRemaining : Z) :
  30 < timeRemaining ->
  (100 < BookingListView.progressPercentage timeRemaining)%Q.
Proof.
  intro H.
  unfold BookingListView.progressPercentage, BookingListView.totalTime.
  rewrite Zlt_Qlt in H.
  change (inject_Z 30) with 30%Q in H.
  set (q := inject_Z timeRemaining) in *.
  unfold Qdiv. change (/ 30)%Q with (1 # 30)%Q.
  lra.
Qed.

(** C10. The progress bar of the list item, of the stack card and of the
    detail modal is (timeRemaining / 30) * 100 percent wide, with the total
    fixed at 30 and no upper clamp: whenever an offer has more than 30
    seconds left, the width each of them renders exceeds 100.  The data
    model does not fix the offer window at 30 seconds: the booking of the
    backend documentation lives 60 seconds and is drawn 200 percent wide
    when it is created. *)
Theorem C10_progress_not_clamped (o : Booking) (now : Z)
  (Hlong : 30 < BookingListView.calculateTimeRemaining now o) :
  let t := BookingListView.calculateTimeRemaining now o in
  BookingListView.progressPercentage t = (inject_Z t / 30 * 100)%Q
  /\ BookingSliderView.progressPercentage t = (inject_Z t / 30 * 100)%Q
  /\ BookingDetailModal.progressPercentage t = (inject_Z t / 30 * 100)%Q
  /\ (100 < BookingListView.item_width
              (BookingListView.BookingListItem now o))%Q
  /\ (forall top,
        100 < BookingSliderView.card_width
                (BookingSliderView.BookingCard now o top))%Q
  /\ (exists p,
        BookingDetailModal.BookingDetailModal now true (Some o)
          = Some (o, t, p) /\ 100 < p)%Q
  /\ expires_at Sample.documented - created_at Sample.documented = 60000
  /\ (BookingListView.item_width
        (BookingListView.BookingListItem
           (created_at Sample.documented) Sample.documented) == 200)%Q.
Proof.
  intro t.
  pose proof (progress_over_100 t Hlong) as Hover.
  split; [reflexivity|]. split; [reflexivity|]. split; [reflexivity|].
  split; [exact Hover|].
  split; [intros top; exact Hover|].
  split.
  - exists (BookingDetailModal.progressPercentage t).
    split; [reflexivity | exact Hover].
  - split; reflexivity.
Qed.

Lemma C10_progress_not_clamped_witness :
  30 < BookingListView.calculateTimeRemaining 0 Sample.O2
  /\ (100 < BookingListView.item_width
              (BookingListView.BookingListItem 0 Sample.O2))%Q.
Proof.
  assert (H : 30 < BookingListView.calculateTimeRemaining 0 Sample.O2)
    by (vm_compute; reflexivity).
  split; [exact H|].
  exact (proj1 (proj2 (proj2 (proj2
           (C10_progress_not_clamped Sample.O2 0 H))))).
Defined.

(** ** The swipe gesture *)

Section Swipe.

Variable SCREEN_WIDTH : float.




End Swipe.




(** ** Fetching and the online switch *)

Lemma commit_keeps (w : World) :
  isOnline (commit w) = isOnline w
  /\ viewMode (commit w) = viewMode w
  /\ bookingRequests (commit w) = bookingRequests w
  /\ selectedBooking (commit w) = selectedBooking w
  /\ isModalVisible (commit w) = isModalVisible w
  /\ pollInterval (commit w) = pollInterval w
  /\ clock (commit w) = clock w
  /\ network (commit w) = network w
  /\ toasts (commit w) = toasts w
  /\ console (commit w) = console w.
Proof.
  unfold commit. destruct (sliderMounted w); repeat split; reflexivity.
Qed.

Lemma fetch_failed (w : World) (e : Api.AxiosError) :
  fetchBookingRequests (Api.Failed e) w
  = console_error
      ("Error fetching bookings: " ++ Api.rethrow "Failed to load bookings" e)
      (send Api.getBookingRequests_request w).
Proof. reflexivity. Qed.

Lemma poll_fetch_replaces (w : World) (fetched : list Booking) :
  let response := Api.Fulfilled (Api.mkBookingsData (Some fetched)) in
  let w' := fetchBookingRequests response w in
  bookingRequests w' = fetched
  /\ (forall o, In o (bookingRequests w') <-> In o fetched)
  /\ (forall o,
        In o (bookingRequests w) -> ~ In o fetched ->
        ~ In o (bookingRequests w'))
  /\ bookingRequests
       (fetchBookingRequests (Api.Fulfilled (Api.mkBookingsData None)) w) = []
  /\ (forall period,
        pollInterval w = Some period ->
        bookingRequests (step w (PollTick response)) = fetched).
Proof.
  intros response w'.
  assert (Hset : bookingRequests w' = fetched) by reflexivity.
  split; [exact Hset|].
  split; [intro o; rewrite Hset; tauto|].
  split; [intros o _ Hout; rewrite Hset; exact Hout|].
  split; [reflexivity|].
  intros period Hlive. unfold step.
  destruct (commit_keeps (handle (PollTick response) w))
    as (_ & _ & -> & _).
  simpl. rewrite Hlive. reflexivity.
Qed.

(** C6. A fetch that succeeds sets the Offer Set to the bookings of the
    response, whatever it held before: an offer is in the set afterwards
    exactly when it is in the response, so a previously held offer that the
    response lacks is gone; a response without a bookings field empties the
    set.  The periodic fetch of the live polling interval does the same. *)
Theorem C6_fetch_replaces (w : World) (fetched : list Booking) :
  let response := Api.Fulfilled (Api.mkBookingsData (Some fetched)) in
  let w' := fetchBookingRequests response w in
  bookingRequests w' = fetched
  /\ (forall o, In o (bookingRequests w') <-> In o fetched)
  /\ (forall o,
        In o (bookingRequests w) -> ~ In o fetched ->
        ~ In o (bookingRequests w'))
  /\ bookingRequests
       (fetchBookingRequests (Api.Fulfilled (Api.mkBookingsData None)) w) = []
  /\ (forall period,
        pollInterval w = Some period ->
        bookingRequests (step w (PollTick response)) = fetched).
Proof. exact (poll_fetch_replaces w fetched). Qed.

Lemma C6_fetch_replaces_witness :
  In Sample.O1 (bookingRequests (Sample.online [Sample.O1; Sample.O2]))
  /\ ~ In Sample.O1 [Sample.O2]
  /\ ~ In Sample.O1
         (bookingRequests
            (fetchBookingRequests
               (Api.Fulfilled (Api.mkBookingsData (Some [Sample.O2])))
               (Sample.online [Sample.O1; Sample.O2]))).
Proof.
  assert (Hin : In Sample.O1
                  (bookingRequests (Sample.online [Sample.O1; Sample.O2])))
    by (left; reflexivity).
  assert (Hout : ~ In Sample.O1 [Sample.O2])
    by (intros [H | []]; discriminate H).
  split; [exact Hin|]. split; [exact Hout|].
  exact (proj1 (proj2 (proj2
           (C6_fetch_replaces (Sample.online [Sample.O1; Sample.O2])
              [Sample.O2]))) Sample.O1 Hin Hout).
Defined.

(** C5. When the status update succeeds, the toggle flips the online flag.
    Going offline empties the Offer Set and leaves no polling interval
    alive, so no further periodic fetch happens.  Going online starts the
    polling interval with a period of 5000 ms and sends exactly one fetch
    request inside the handler itself, before any polling tick; every later
    tick of the interval fetches again.  When the status update fails there
    is no transition: flag, Offer Set and interval stay as they were. *)
Theorem C5_online_switch (w : World)
  (fetchReply nextReply : Api.Reply Api.BookingsData) (e : Api.AxiosError) :
  let w' := handleToggleOnline (Api.Fulfilled tt) fetchReply w in
  let stay := handleToggleOnline (Api.Failed e) fetchReply w in
  (isOnline w = true ->
     isOnline w' = false
     /\ bookingRequests w' = []
     /\ pollInterval w' = None
     /\ network w' = (network w ++ [Api.updateOnlineStatus_request false])%list
     /\ handle (PollTick nextReply) w' = w')
  /\ (isOnline w = false ->
     isOnline w' = true
     /\ pollInterval w' = Some 5000
     /\ network w'
        = (network w ++ [Api.updateOnlineStatus_request true;
                         Api.getBookingRequests_request])%list
     /\ bookingRequests w'
        = match Api.getBookingRequests fetchReply with
          | Api.Resolved fetched => fetched
          | Api.Thrown _ => bookingRequests w
          end
     /\ handle (PollTick nextReply) w' = fetchBookingRequests nextReply w')
  /\ (isOnline stay = isOnline w
      /\ bookingRequests stay = bookingRequests w
      /\ pollInterval stay = pollInterval w).
Proof.
  intros w' stay. subst w' stay.
  destruct w as [online mode held selected visible index interval now
                 sent shown logged].
  simpl. split; [|split].
  - intro Hflag; subst online. repeat split; reflexivity.
  - intro Hflag; subst online.
    unfold handleToggleOnline, pollingEffect. simpl.
    destruct fetchReply as [data | e']; simpl;
      repeat split; try reflexivity;
      unfold send; simpl; rewrite <- app_assoc; reflexivity.
  - repeat split; reflexivity.
Qed.

Lemma C5_online_switch_witness :
  isOnline initial = false
  /\ pollInterval (Sample.online [Sample.O1]) = Some 5000
  /\ isOnline (Sample.online [Sample.O1]) = true
  /\ bookingRequests
       (handleToggleOnline (Api.Fulfilled tt) (Api.Failed Api.WithRequest)
          (Sample.online [Sample.O1])) = [].
Proof.
  assert (Hoff : isOnline initial = false) by reflexivity.
  assert (Hon : isOnline (Sample.online [Sample.O1]) = true) by reflexivity.
  split; [exact Hoff|].
  split.
  - exact (proj1 (proj2
             (proj1 (proj2 (C5_online_switch initial
                              (Sample.reply [Sample.O1]) (Sample.reply [])
                              Api.WithRequest)) Hoff))).
  - split; [exact Hon|].
    exact (proj1 (proj2
             (proj1 (C5_online_switch (Sample.online [Sample.O1])
                       (Api.Failed Api.WithRequest) (Sample.reply [])
                       Api.WithRequest) Hon))).
Defined.

(** C7 (as amended). When a periodic fetch fails, whatever the failure, the
    Offer Set is left exactly as it was; no toast is shown: the failure is
    only written to the console (for a transport failure, with the message
    that the server cannot be reached); exactly one request was sent and the
    polling interval is untouched, so nothing is retried before the next
    tick; and a fetch that succeeds at the next tick sets the Offer Set to
    its response. *)
Theorem C7_failed_fetch_is_logged_only (w : World) (e : Api.AxiosError)
  (fetched : list Booking) (period : Z)
  (Hlive : pollInterval w = Some period) :
  let w' := step w (PollTick (Api.Failed e)) in
  bookingRequests w' = bookingRequests w
  /\ toasts w' = toasts w
  /\ console w'
     = (console w
        ++ [("Error fetching bookings: "
             ++ Api.rethrow "Failed to load bookings" e)%string])%list
  /\ Api.rethrow "Failed to load bookings" Api.WithRequest
     = "Unable to reach server. Please check your internet connection."
  /\ network w' = (network w ++ [Api.getBookingRequests_request])%list
  /\ pollInterval w' = Some period
  /\ bookingRequests
       (step w' (PollTick (Api.Fulfilled (Api.mkBookingsData (Some fetched)))))
     = fetched.
Proof.
  intro w'.
  assert (Hw' : w' = commit (fetchBookingRequests (Api.Failed e) w)).
  { unfold w', step. simpl. rewrite Hlive. reflexivity. }
  destruct (commit_keeps (fetchBookingRequests (Api.Failed e) w))
    as (_ & _ & Hb & _ & _ & Hp & _ & Hn & Ht & Hc).
  rewrite <- Hw' in Hb, Hp, Hn, Ht, Hc.
  rewrite fetch_failed in Hb, Hp, Hn, Ht, Hc. simpl in Hb, Hp, Hn, Ht, Hc.
  split; [exact Hb|]. split; [exact Ht|]. split; [exact Hc|].
  split; [reflexivity|]. split; [exact Hn|].
  split; [rewrite Hp; exact Hlive|].
  apply (proj2 (proj2 (proj2 (proj2 (poll_fetch_replaces w' fetched)))))
    with (period := period).
  rewrite Hp. exact Hlive.
Qed.

Lemma C7_failed_fetch_is_logged_only_witness :
  pollInterval (Sample.online [Sample.O1; Sample.O2]) = Some 5000
  /\ toasts (step (Sample.online [Sample.O1; Sample.O2])
               (PollTick (Api.Failed Api.WithRequest)))
     = toasts (Sample.online [Sample.O1; Sample.O2]).
Proof.
  assert (H : pollInterval (Sample.online [Sample.O1; Sample.O2])
              = Some 5000) by reflexivity.
  split; [exact H|].
  exact (proj1 (proj2
           (C7_failed_fetch_is_logged_only
              (Sample.online [Sample.O1; Sample.O2]) Api.WithRequest
              [Sample.O2] 5000 H))).
Defined.

(** C7 as stated fails: with two offers held and the driver online, a
    periodic fetch that meets a transport failure shows no toast, the only
    user-visible notification the screen has. *)
Lemma C7_counterexample :
  let w := Sample.online [Sample.O1; Sample.O2] in
  let w' := step w (PollTick (Api.Failed Api.WithRequest)) in
  ~ (bookingRequests w' = bookingRequests w
     /\ (exists warning, toasts w' = (toasts w ++ [warning])%list)
     /\ network w' = (network w ++ [Api.getBookingRequests_request])%list
     /\ bookingRequests (step w' (PollTick (Sample.reply [Sample.O2])))
        = [Sample.O2]).
Proof.
  intros w w' (_ & [warning Hshown] & _).
  vm_compute in Hshown. discriminate Hshown.
Qed.

(** ** Dismissing *)

Lemma sliderMounted_setCurrentIndex (n : nat) (w : World) :
  sliderMounted (setCurrentIndex n w) = sliderMounted w.
Proof.
  unfold sliderMounted, bookingArea. simpl.
  destruct (isOnline w); simpl; [|reflexivity].
  destruct (bookingRequests w); [reflexivity|].
  destruct (viewMode w); reflexivity.
Qed.

Lemma dismiss_commit (w : World) :
  sliderMounted w = true ->
  commit (BookingSliderView.handleSwipeLeft w)
  = setCurrentIndex (currentIndex w + 1)%nat w.
Proof.
  intro Hon. unfold BookingSliderView.handleSwipeLeft, commit.
  rewrite sliderMounted_setCurrentIndex, Hon. reflexivity.
Qed.

Lemma not_in_later {A : Type} (l : list A) (i : nat) (x : A) :
  NoDup l -> nth_error l i = Some x -> ~ In x (skipn (S i) l).
Proof.
  intros Hnd Hi Hin.
  apply In_nth_error in Hin. destruct Hin as [j Hj].
  rewrite nth_error_skipn in Hj.
  assert (Hlen : (i < List.length l)%nat)
    by (apply nth_error_Some; rewrite Hi; discriminate).
  pose proof (proj1 (NoDup_nth_error l) Hnd i (S i + j)%nat Hlen) as Heq.
  rewrite Hi, Hj in Heq. specialize (Heq eq_refl). lia.
Qed.




(** ** Expiry *)

Lemma sliderMounted_setClock (now : Z) (w : World) :
  sliderMounted (setClock now w) = sliderMounted w.
Proof.
  unfold sliderMounted, bookingArea. simpl.
  destruct (isOnline w); simpl; [|reflexivity].
  destruct (bookingRequests w); [reflexivity|].
  destruct (viewMode w); reflexivity.
Qed.

Lemma sliderMounted_commit (w : World) :
  sliderMounted (commit w) = sliderMounted w.
Proof.
  unfold commit. destruct (sliderMounted w) eqn:E; [exact E|].
  rewrite sliderMounted_setCurrentIndex. exact E.
Qed.

(** A countdown tick writes the clock the countdown callbacks read, and
    nothing else. *)
Lemma tick_step (now : Z) (w : World) :
  step w (CountdownTick now) = setClock now (commit w).
Proof.
  unfold step, handle, commit.
  rewrite sliderMounted_setClock.
  destruct (sliderMounted w); reflexivity.
Qed.

Lemma ticks_run (nows : list Z) :
  forall (w : World) (now : Z),
    run w (map CountdownTick (nows ++ [now])) = setClock now (commit w).
Proof.
  induction nows as [|n nows IH]; intros w now.
  - apply tick_step.
  - change (run (step w (CountdownTick n))
              (map CountdownTick (nows ++ [now]))
            = setClock now (commit w)).
    rewrite IH, tick_step.
    unfold commit at 1. rewrite sliderMounted_setClock, sliderMounted_commit.
    unfold commit.
    destruct (sliderMounted w) eqn:E; reflexivity.
Qed.

Lemma card_bookings (now : Z) (i : nat) (l : list Booking) :
  map BookingSliderView.card_booking
    (Js.mapi_from i
       (fun booking index =>
          BookingSliderView.BookingCard now booking (Nat.eqb index 1)) l)
  = l.
Proof.
  revert i. induction l as [|b l IH]; intro i; simpl.
  - reflexivity.
  - rewrite IH. reflexivity.
Qed.

Lemma stack_bookings (now : Z) (bookings : list Booking) (ci : nat) :
  map BookingSliderView.card_booking
    (BookingSliderView.BookingSliderView now bookings ci)
  = match bookings with
    | [] => []
    | _ :: _ => rev (Js.slice ci (ci + 2) bookings)
    end.
Proof.
  unfold BookingSliderView.BookingSliderView, Js.mapi.
  destruct bookings; [reflexivity|]. apply card_bookings.
Qed.

(** C2 (as amended). After an offer's remaining seconds have reached 0, the
    countdown ticks do not remove it: however many ticks follow, the Offer
    Set is unchanged and no request is sent, the list projection still has
    a row for the offer, showing 0 seconds, and the stack projection holds
    the same offers as before, each card of the expired offer showing 0
    seconds.  The offer leaves the Offer Set when a later successful fetch
    returns a set that lacks it. *)
Theorem C2_expiry_is_display_only (w : World) (o : Booking)
  (earlier : list Z) (now : Z)
  (Hheld : In o (bookingRequests w))
  (Hexpired : BookingListView.calculateTimeRemaining now o = 0) :
  let w' := run w (map CountdownTick (earlier ++ [now])) in
  bookingRequests w' = bookingRequests w
  /\ network w' = network w
  /\ (exists item,
        In item (listProjection w')
        /\ BookingListView.item_booking item = o
        /\ BookingListView.item_timeRemaining item = 0)
  /\ map BookingSliderView.card_booking (stackProjection w')
     = map BookingSliderView.card_booking (stackProjection (commit w))
  /\ (forall card,
        In card (stackProjection w') ->
        BookingSliderView.card_booking card = o ->
        BookingSliderView.card_timeRemaining card = 0)
  /\ (forall fetched period,
        pollInterval w' = Some period ->
        ~ In o fetched ->
        ~ In o (bookingRequests
                  (step w' (PollTick
                     (Api.Fulfilled (Api.mkBookingsData (Some fetched))))))).
Proof.
  intro w'. unfold w'. rewrite ticks_run.
  destruct (commit_keeps w) as (_ & _ & Hb & _ & _ & _ & _ & Hn & _).
  split; [exact Hb|]. split; [exact Hn|].
  split.
  { exists (BookingListView.BookingListItem now o).
    split; [|split; [reflexivity | exact Hexpired]].
    unfold listProjection, BookingListView.BookingListView. simpl.
    apply in_map. rewrite Hb. exact Hheld. }
  split.
  { unfold stackProjection. simpl. rewrite !stack_bookings. reflexivity. }
  split.
  { intros card Hin Hcard. unfold stackProjection in Hin. simpl in Hin.
    apply card_shows in Hin. destruct Hin as [_ ->].
    rewrite Hcard. exact Hexpired. }
  intros fetched period Hlive Hout.
  rewrite (proj2 (proj2 (proj2 (proj2
             (poll_fetch_replaces (setClock now (commit w)) fetched))))
             period Hlive).
  exact Hout.
Qed.

Lemma C2_expiry_is_display_only_witness :
  In Sample.O1 (bookingRequests (Sample.online [Sample.O1]))
  /\ BookingListView.calculateTimeRemaining 30000 Sample.O1 = 0
  /\ bookingRequests
       (run (Sample.online [Sample.O1])
          (map CountdownTick ([29000] ++ [30000])))
     = bookingRequests (Sample.online [Sample.O1]).
Proof.
  assert (Hheld : In Sample.O1 (bookingRequests (Sample.online [Sample.O1])))
    by (left; reflexivity).
  assert (Hzero : BookingListView.calculateTimeRemaining 30000 Sample.O1 = 0)
    by reflexivity.
  split; [exact Hheld|]. split; [exact Hzero|].
  exact (proj1
           (C2_expiry_is_display_only (Sample.online [Sample.O1]) Sample.O1
              [29000] 30000 Hheld Hzero)).
Defined.

(** C2 as stated fails (Scenario A): one offer expiring 30 s after the
    driver went online; the 30th one-second tick brings its remaining
    seconds to 0, and after the 31st tick the offer is still in the Offer
    Set and in both projections. *)
Lemma C2_counterexample :
  let w := Sample.online [Sample.O1] in
  let w30 := run w (Sample.ticks 30) in
  let w31 := run w (Sample.ticks 31) in
  ~ (BookingListView.calculateTimeRemaining (clock w30) Sample.O1 = 0 ->
     ~ In Sample.O1 (bookingRequests w31)
     /\ ~ In Sample.O1
           (map BookingListView.item_booking (listProjection w31))
     /\ ~ In Sample.O1
           (map BookingSliderView.card_booking (stackProjection w31))
     /\ network w31 = network w).
Proof.
  intros w w30 w31 Hclaim.
  assert (Hzero : BookingListView.calculateTimeRemaining (clock w30)
                    Sample.O1 = 0) by (vm_compute; reflexivity).
  destruct (Hclaim Hzero) as (Hgone & _).
  apply Hgone. vm_compute. left. reflexivity.
Qed.

(** ** Accepting, and resolving twice *)

(** C3 (as amended). Invoking the dismiss action of the stack a second
    time is not a no-op: the callback takes no offer identifier and keeps no
    per-offer state, so the first invocation moves the stack on by one
    position and the second by one more, past the next offer, which gets no
    decision at all.  A dismissal, repeated or not, leaves the Offer Set
    alone and sends nothing to the backend (so no accept call). *)
Theorem C3_second_dismissal (w : World) :
  let dismiss := BookingSliderView.handleSwipeLeft in
  currentIndex (dismiss w) = (currentIndex w + 1)%nat
  /\ currentIndex (dismiss (dismiss w)) = (currentIndex w + 2)%nat
  /\ dismiss (dismiss w) <> dismiss w
  /\ bookingRequests (dismiss (dismiss w)) = bookingRequests w
  /\ network (dismiss (dismiss w)) = network w
  /\ accept_calls (dismiss (dismiss w)) = accept_calls w
  /\ (forall next,
        sliderMounted w = true ->
        NoDup (bookingRequests w) ->
        nth_error (bookingRequests w) (currentIndex w + 1) = Some next ->
        ~ In next
            (map BookingSliderView.card_booking
               (stackProjection (commit (dismiss (commit (dismiss w))))))).
Proof.
  intro dismiss. subst dismiss.
  split; [reflexivity|].
  split; [unfold BookingSliderView.handleSwipeLeft; simpl; lia|].
  split.
  { intro Heq. apply (f_equal currentIndex) in Heq.
    unfold BookingSliderView.handleSwipeLeft in Heq. simpl in Heq. lia. }
  split; [reflexivity|]. split; [reflexivity|]. split; [reflexivity|].
  intros next Hon Huniq Hnext Hin.
  rewrite (dismiss_commit w Hon) in Hin.
  assert (Hon' : sliderMounted (setCurrentIndex (currentIndex w + 1)%nat w)
                 = true)
    by (rewrite sliderMounted_setCurrentIndex; exact Hon).
  rewrite (dismiss_commit _ Hon') in Hin.
  apply in_map_iff in Hin. destruct Hin as [card [Hc Hin]].
  unfold stackProjection in Hin. simpl in Hin.
  apply card_shows in Hin. destruct Hin as [Hin _].
  rewrite Hc in Hin.
  replace (currentIndex w + 1 + 1)%nat with (S (currentIndex w + 1)) in Hin
    by lia.
  exact (not_in_later _ _ _ Huniq Hnext Hin).
Qed.

Lemma C3_second_dismissal_witness :
  sliderMounted (Sample.swiping [Sample.O1; Sample.O2; Sample.documented])
  = true
  /\ NoDup
       (bookingRequests
          (Sample.swiping [Sample.O1; Sample.O2; Sample.documented]))
  /\ nth_error
       (bookingRequests
          (Sample.swiping [Sample.O1; Sample.O2; Sample.documented]))
       (currentIndex
          (Sample.swiping [Sample.O1; Sample.O2; Sample.documented]) + 1)
     = Some Sample.O2
  /\ ~ In Sample.O2
         (map BookingSliderView.card_booking
            (stackProjection
               (commit
                  (BookingSliderView.handleSwipeLeft
                     (commit
                        (BookingSliderView.handleSwipeLeft
                           (Sample.swiping
                              [Sample.O1; Sample.O2;
                               Sample.documented]))))))).
Proof.
  assert (Hon : sliderMounted
                  (Sample.swiping [Sample.O1; Sample.O2; Sample.documented])
                = true) by reflexivity.
  assert (Huniq : NoDup
                    (bookingRequests
                       (Sample.swiping
                          [Sample.O1; Sample.O2; Sample.documented]))).
  { simpl. constructor.
    - intros [H | [H | []]]; discriminate H.
    - constructor.
      + intros [H | []]. discriminate H.
      + constructor; [intros [] | constructor]. }
  assert (Hnext : nth_error
                    (bookingRequests
                       (Sample.swiping
                          [Sample.O1; Sample.O2; Sample.documented]))
                    (currentIndex
                       (Sample.swiping
                          [Sample.O1; Sample.O2; Sample.documented]) + 1)
                  = Some Sample.O2) by reflexivity.
  split; [exact Hon|]. split; [exact Huniq|]. split; [exact Hnext|].
  exact (proj2 (proj2 (proj2 (proj2 (proj2 (proj2
           (C3_second_dismissal
              (Sample.swiping
                 [Sample.O1; Sample.O2; Sample.documented])))))))
           Sample.O2 Hon Huniq Hnext).
Defined.

(** C3 as stated fails: with [O1; O2] held and the stack on screen, the
    dismiss callback of O1's card invoked a second time does not leave the
    state of the first invocation: the stack moves past O2 as well. *)
Lemma C3_counterexample :
  let w := Sample.swiping [Sample.O1; Sample.O2] in
  let dismiss := BookingSliderView.handleSwipeLeft in
  ~ (dismiss (dismiss w) = dismiss w
     /\ (accept_calls (dismiss (dismiss w)) <= accept_calls w + 1)%nat).
Proof.
  intros w dismiss [Hsame _].
  apply (f_equal currentIndex) in Hsame.
  vm_compute in Hsame. discriminate Hsame.
Qed.

(** C1 (the code at the failing input).  With [O1; O2] fetched, accepting
    O1, from the detail modal or by the accept callback of its card, sends
    no request at all, the accept request for O1 in particular, and leaves
    the Offer Set at [O1; O2]; the handler does so for every identifier and
    state, and the variant that refreshes after accepting sends the listing
    request only. *)
Theorem C1_accept_is_not_wired :
  let w := Sample.online [Sample.O1; Sample.O2] in
  let viaModal := run w [PressBooking Sample.O1; ModalAccept] in
  let viaSwipe := run w [ChooseView slider_view; SwipeRight] in
  bookingRequests viaModal = [Sample.O1; Sample.O2]
  /\ network viaModal = network w
  /\ ~ In (Api.acceptBooking_request (id Sample.O1)) (network viaModal)
  /\ accept_calls viaModal = 0%nat
  /\ bookingRequests viaSwipe = [Sample.O1; Sample.O2]
  /\ network viaSwipe = network w
  /\ currentIndex viaSwipe = 1%nat
  /\ (forall bookingId w0,
        bookingRequests (handleAcceptBooking bookingId w0)
          = bookingRequests w0
        /\ network (handleAcceptBooking bookingId w0) = network w0)
  /\ (forall fetchReply bookingId w0,
        network (handleAcceptBooking_refresh fetchReply bookingId w0)
        = (network w0 ++ [Api.getBookingRequests_request])%list).
Proof.
  intros w viaModal viaSwipe.
  split; [reflexivity|]. split; [reflexivity|].
  split.
  { vm_compute. intros [H | [H | []]]; discriminate H. }
  split; [reflexivity|].
  split; [reflexivity|]. split; [reflexivity|]. split; [reflexivity|].
  split.
  - intros bookingId w0. split; reflexivity.
  - intros fetchReply bookingId w0.
    unfold handleAcceptBooking_refresh.
    destruct fetchReply; reflexivity.
Qed.

(** * Further properties of the code *)

(** ** The API client's error messages *)

Lemma or_string_nonempty (a : option string) (b : string) :
  b <> "" -> Js.or_string a b <> "".
Proof.
  intro Hb. unfold Js.or_string.
  destruct a as [s|]; [|exact Hb].
  destruct (String.eqb s "") eqn:E; [exact Hb|].
  apply String.eqb_neq. exact E.
Qed.

Lemma or_string_takes (s b : string) :
  s <> "" -> Js.or_string (Some s) b = s.
Proof.
  intro Hs. unfold Js.or_string.
  apply String.eqb_neq in Hs. rewrite Hs. reflexivity.
Qed.

Lemma or_string_skips_none (b : string) : Js.or_string None b = b.
Proof. reflexivity. Qed.

Lemma or_string_skips_empty (b : string) : Js.or_string (Some "") b = b.
Proof. reflexivity. Qed.

(** X1. The error an API function throws never has a blank message when its
    fallback text is not blank: a non-empty [detail] of the server's answer
    wins, else a non-empty [message], else the fallback of the function; a
    request that got no answer gives the connectivity message. *)
Theorem X1_error_message_never_blank (fallback : string)
  (e : Api.AxiosError) (Hfallback : fallback <> "") :
  Api.rethrow fallback e <> ""
  /\ (forall detail message,
        detail <> "" ->
        Api.rethrow fallback (Api.WithResponse (Some detail) message)
        = detail)
  /\ (forall message,
        message <> "" ->
        Api.rethrow fallback (Api.WithResponse None (Some message)) = message
        /\ Api.rethrow fallback (Api.WithResponse (Some "") (Some message))
           = message)
  /\ Api.rethrow fallback (Api.WithResponse (Some "") (Some "")) = fallback
  /\ Api.rethrow fallback (Api.WithResponse None None) = fallback
  /\ Api.rethrow fallback Api.WithRequest
     = "Unable to reach server. Please check your internet connection.".
Proof.
  split.
  { destruct e as [detail message| | |]; simpl; try discriminate.
    apply or_string_nonempty. apply or_string_nonempty. exact Hfallback. }
  split.
  { intros detail message Hd. unfold Api.rethrow.
    apply or_string_takes. exact Hd. }
  split.
  { intros message Hm. unfold Api.rethrow.
    rewrite or_string_skips_none, or_string_skips_empty.
    split; apply or_string_takes; exact Hm. }
  repeat split; reflexivity.
Qed.

Lemma X1_error_message_never_blank_witness :
  "Failed to load bookings" <> ""
  /\ Api.rethrow "Failed to load bookings"
       (Api.WithResponse (Some "") None) <> "".
Proof.
  assert (H : "Failed to load bookings" <> "") by discriminate.
  split; [exact H|].
  exact (proj1 (X1_error_message_never_blank "Failed to load bookings"
                  (Api.WithResponse (Some "") None) H)).
Defined.

(** ** More on the countdown and the progress bar *)

(** X2. While an offer has time left, the seconds shown are the whole
    seconds left, rounded down, and a callback run one second later shows
    exactly one second less. *)
Theorem X2_tick_lowers_by_one (o : Booking) (now : Z)
  (Hleft : 0 < BookingListView.calculateTimeRemaining now o) :
  let t := BookingListView.calculateTimeRemaining now o in
  1000 * t <= expires_at o - now < 1000 * (t + 1)
  /\ BookingListView.calculateTimeRemaining (now + 1000) o = t - 1
  /\ BookingSliderView.calculateTimeRemaining (now + 1000) o = t - 1
  /\ BookingDetailModal.calculateTimeRemaining (now + 1000) o = t - 1.
Proof.
  intro t. subst t.
  unfold BookingListView.calculateTimeRemaining,
    BookingSliderView.calculateTimeRemaining,
    BookingDetailModal.calculateTimeRemaining in *.
  cbv zeta in *.
  set (d := expires_at o - now) in *.
  assert (Hq : 0 < d / 1000) by lia.
  rewrite Z.max_r by lia.
  assert (Hshift : (expires_at o - (now + 1000)) / 1000 = d / 1000 - 1).
  { replace (expires_at o - (now + 1000)) with (d + (-1) * 1000)
      by (unfold d; lia).
    rewrite Z.div_add by lia. lia. }
  rewrite Hshift. rewrite Z.max_r by lia.
  pose proof (Z.mul_div_le d 1000 ltac:(lia)) as Hlow.
  pose proof (Z.mul_succ_div_gt d 1000 ltac:(lia)) as Hhigh.
  repeat split; lia.
Qed.

Lemma X2_tick_lowers_by_one_witness :
  0 < BookingListView.calculateTimeRemaining 500 Sample.O1
  /\ BookingListView.calculateTimeRemaining (500 + 1000) Sample.O1
     = BookingListView.calculateTimeRemaining 500 Sample.O1 - 1.
Proof.
  assert (H : 0 < BookingListView.calculateTimeRemaining 500 Sample.O1)
    by (vm_compute; reflexivity).
  split; [exact H|].
  exact (proj1 (proj2 (X2_tick_lowers_by_one Sample.O1 500 H))).
Defined.

Lemma progress_as_product (timeRemaining : Z) :
  (BookingListView.progressPercentage timeRemaining
   == inject_Z timeRemaining * (100 # 30))%Q.
Proof.
  unfold BookingListView.progressPercentage, BookingListView.totalTime.
  unfold Qdiv. change (/ 30)%Q with (1 # 30)%Q.
  set (q := inject_Z timeRemaining). ring.
Qed.

(** X3. For an offer with at most 30 seconds left the progress bar is
    between 0 and 100 percent wide, it is empty exactly when less than one
    second is left, and an offer with more seconds left never gets a
    narrower bar. *)
Theorem X3_progress_within_bounds (o : Booking) (now : Z) (later : Z)
  (Hshort : BookingListView.calculateTimeRemaining now o <= 30)
  (Hadvance : now <= later) :
  let width t := BookingListView.progressPercentage t in
  let t := BookingListView.calculateTimeRemaining now o in
  (0 <= width t <= 100)%Q
  /\ ((width t == 0)%Q <-> expires_at o - now < 1000)
  /\ (width (BookingListView.calculateTimeRemaining later o) <= width t)%Q.
Proof.
  intros width t. subst width. cbv beta.
  pose proof (remaining_nonneg o now) as Hnn. fold t in Hnn, Hshort |- *.
  pose proof (remaining_antitone o now later Hadvance) as Hanti.
  fold t in Hanti.
  rewrite !progress_as_product.
  rewrite Zle_Qle in Hnn, Hshort, Hanti.
  change (inject_Z 0) with 0%Q in Hnn.
  change (inject_Z 30) with 30%Q in Hshort.
  split; [split; lra|].
  split.
  - rewrite <- (remaining_zero_iff o now). fold t.
    split; intro H.
    + assert (Hz : (inject_Z t == 0)%Q) by lra.
      unfold Qeq in Hz. simpl in Hz. lia.
    + rewrite H. reflexivity.
  - lra.
Qed.

Lemma X3_progress_within_bounds_witness :
  BookingListView.calculateTimeRemaining 0 Sample.O1 <= 30
  /\ 0 <= 1000
  /\ (BookingListView.progressPercentage
        (BookingListView.calculateTimeRemaining 0 Sample.O1) <= 100)%Q.
Proof.
  assert (H : BookingListView.calculateTimeRemaining 0 Sample.O1 <= 30)
    by (vm_compute; discriminate).
  assert (H' : 0 <= 1000) by lia.
  split; [exact H|]. split; [exact H'|].
  exact (proj2 (proj1 (X3_progress_within_bounds Sample.O1 0 1000 H H'))).
Defined.

(** ** Invariants of the dashboard screen *)

Ltac break_world w :=
  destruct w as [online mode held selected visible index interval now
                 sent shown logged].

Lemma happen_keeps (r : AsyncDashboard.Running)
  (h : AsyncDashboard.Happening) :
  let w := AsyncDashboard.world r in
  pollInterval w = (if isOnline w then Some 5000 else None) ->
  (isModalVisible w = true <-> selectedBooking w <> None) ->
  let w' := AsyncDashboard.world (AsyncDashboard.happen h r) in
  pollInterval w' = (if isOnline w' then Some 5000 else None)
  /\ (isModalVisible w' = true <-> selectedBooking w' <> None).
Proof.
  destruct r as [w suspended]. cbv zeta.
  change (AsyncDashboard.world (AsyncDashboard.mkRunning w suspended))
    with w.
  intros Hpoll Hmodal.
  break_world w. simpl in Hpoll, Hmodal.
  destruct h as [ | | n reply | n reply | e]; simpl.
  - split; assumption.
  - destruct interval; simpl; split; assumption.
  - destruct (nth_error suspended n) as [[newStatus|]|]; simpl;
      try (split; assumption).
    destruct reply as [[] | e]; simpl; [|split; assumption].
    unfold pollingEffect. simpl.
    destruct online, newStatus; simpl; split; try reflexivity;
      try assumption.
  - destruct (nth_error suspended n) as [[newStatus|]|]; simpl;
      try (split; assumption).
    destruct reply as [data | e]; simpl; split; assumption.
  - destruct e as [statusReply fetchReply | fetchReply | tick | view | b
                  | | | | ]; simpl; try (split; assumption).
    + split; [exact Hpoll|]. split; [discriminate | reflexivity].
    + split; [exact Hpoll|].
      split; [discriminate | intro H; contradiction].
    + destruct visible; simpl; [|split; assumption].
      destruct selected as [b|]; simpl; [|split; assumption].
      split; [exact Hpoll|].
      split; [discriminate | intro H; contradiction].
    + destruct (hasTopCard _); simpl; split; assumption.
    + destruct (hasTopCard _); simpl; [|split; assumption].
      unfold BookingSliderView.handleSwipeRight. simpl.
      destruct (nth_error held index); simpl; [|split; assumption].
      split; [exact Hpoll|].
      split; [discriminate | intro H; contradiction].
Qed.

Lemma commit_index (w : World) :
  sliderMounted (commit w) = false -> currentIndex (commit w) = 0%nat.
Proof.
  rewrite sliderMounted_commit. intro H. unfold commit. rewrite H.
  reflexivity.
Qed.

Lemma run_snoc (w : World) (es : list Event) (e : Event) :
  run w (es ++ [e]) = step (run w es) e.
Proof. unfold run. rewrite fold_left_app. reflexivity. Qed.

(** The handlers of [DashboardScreen], which run to their end in one step,
    are the runs of [AsyncDashboard] in which nothing comes between a
    request and its reply. *)
Lemma toggle_without_interleaving (w : World) (statusReply : Api.Reply unit)
  (fetchReply : Api.Reply Api.BookingsData) :
  commit w = w ->
  AsyncDashboard.world
    (AsyncDashboard.run (AsyncDashboard.mkRunning w [])
       [AsyncDashboard.TapToggle;
        AsyncDashboard.StatusSettles 0 statusReply;
        AsyncDashboard.BookingsSettle 0 fetchReply])
  = step w (ToggleOnline statusReply fetchReply).
Proof.
  break_world w. unfold commit, sliderMounted, bookingArea. simpl.
  destruct online, held as [|b held], mode; simpl; intro Hw;
    try (injection Hw as Hindex; subst index);
    destruct statusReply as [[] | e]; try reflexivity;
    destruct fetchReply as [[[|b' fetched] | ] | e']; reflexivity.
Qed.

Lemma poll_without_interleaving (w : World)
  (fetchReply : Api.Reply Api.BookingsData) :
  commit w = w ->
  AsyncDashboard.world
    (AsyncDashboard.run (AsyncDashboard.mkRunning w [])
       [AsyncDashboard.IntervalFires;
        AsyncDashboard.BookingsSettle 0 fetchReply])
  = step w (PollTick fetchReply).
Proof.
  break_world w. unfold commit, sliderMounted, bookingArea. simpl.
  destruct interval, online, held as [|b held], mode; simpl; intro Hw;
    try (injection Hw as Hindex; subst index);
    try reflexivity;
    destruct fetchReply as [[[|b' fetched] | ] | e']; reflexivity.
Qed.

(** X5. In every state the screen reaches from its first render, whatever
    the driver does and in whatever order the replies of the backend
    arrive (a reply may land after any number of later events): the polling
    interval is live, with its period of 5000 ms, exactly while the driver
    is online; the stack position is 0 whenever the stack is not on screen;
    and the detail modal is visible exactly when a booking is selected.
    The Offer Set is not tied to the online flag in this way: a listing
    that arrives after the driver went offline fills the Offer Set of the
    offline screen. *)
Theorem X5_reachable_states (hs : list AsyncDashboard.Happening) :
  let w := AsyncDashboard.world (AsyncDashboard.run AsyncDashboard.initial hs)
  in
  pollInterval w = (if isOnline w then Some 5000 else None)
  /\ (sliderMounted w = false -> currentIndex w = 0%nat)
  /\ (isModalVisible w = true <-> selectedBooking w <> None)
  /\ (let late :=
        AsyncDashboard.world
          (AsyncDashboard.run AsyncDashboard.initial
             [AsyncDashboard.TapToggle;
              AsyncDashboard.StatusSettles 0 (Api.Fulfilled tt);
              AsyncDashboard.BookingsSettle 0 (Sample.reply [Sample.O1]);
              AsyncDashboard.IntervalFires;
              AsyncDashboard.TapToggle;
              AsyncDashboard.StatusSettles 1 (Api.Fulfilled tt);
              AsyncDashboard.BookingsSettle 0 (Sample.reply [Sample.O2])])
      in
      isOnline late = false /\ pollInterval late = None
      /\ bookingRequests late = [Sample.O2]).
Proof.
  assert (Hinv : forall hs',
    let w :=
      AsyncDashboard.world (AsyncDashboard.run AsyncDashboard.initial hs')
    in
    pollInterval w = (if isOnline w then Some 5000 else None)
    /\ (sliderMounted w = false -> currentIndex w = 0%nat)
    /\ (isModalVisible w = true <-> selectedBooking w <> None)).
  { induction hs' as [|h hs' IH] using rev_ind.
    - simpl. split; [reflexivity|]. split; [reflexivity|].
      split; [discriminate | intro H; contradiction].
    - cbv zeta in *.
      unfold AsyncDashboard.run in *. rewrite fold_left_app. simpl.
      set (r := fold_left AsyncDashboard.step hs' AsyncDashboard.initial)
        in *.
      destruct IH as (Hpoll & _ & Hmodal).
      pose proof (happen_keeps r h Hpoll Hmodal) as Hnext.
      cbv zeta in Hnext. destruct Hnext as (Hpoll' & Hmodal').
      destruct (commit_keeps
                  (AsyncDashboard.world (AsyncDashboard.happen h r)))
        as (Eon & _ & _ & Es & Ev & Ep & _).
      rewrite Ep, Eon, Es, Ev.
      split; [exact Hpoll'|]. split; [apply commit_index | exact Hmodal']. }
  destruct (Hinv hs) as (H1 & H2 & H3).
  split; [exact H1|]. split; [exact H2|]. split; [exact H3|].
  vm_compute. repeat split; reflexivity.
Qed.

Lemma X5_reachable_states_witness :
  sliderMounted
    (AsyncDashboard.world
       (AsyncDashboard.run AsyncDashboard.initial
          [AsyncDashboard.TapToggle;
           AsyncDashboard.Other (ChooseView slider_view);
           AsyncDashboard.StatusSettles 0 (Api.Fulfilled tt)]))
  = false
  /\ currentIndex
       (AsyncDashboard.world
          (AsyncDashboard.run AsyncDashboard.initial
             [AsyncDashboard.TapToggle;
              AsyncDashboard.Other (ChooseView slider_view);
              AsyncDashboard.StatusSettles 0 (Api.Fulfilled tt)]))
     = 0%nat.
Proof.
  assert (H : sliderMounted
                (AsyncDashboard.world
                   (AsyncDashboard.run AsyncDashboard.initial
                      [AsyncDashboard.TapToggle;
                       AsyncDashboard.Other (ChooseView slider_view);
                       AsyncDashboard.StatusSettles 0 (Api.Fulfilled tt)]))
              = false) by reflexivity.
  split; [exact H|].
  exact (proj1 (proj2
           (X5_reachable_states
              [AsyncDashboard.TapToggle;
               AsyncDashboard.Other (ChooseView slider_view);
               AsyncDashboard.StatusSettles 0 (Api.Fulfilled tt)])) H).
Defined.

(** ** What the screen sends *)


Lemma handle_sends (w : World) (e : Event) :
  exists sent_now,
    network (handle e w) = (network w ++ sent_now)%list
    /\ Forall (fun r => r = Api.getBookingRequests_request
                        \/ exists status,
                             r = Api.updateOnlineStatus_request status)
         sent_now.
Proof.
  break_world w.
  destruct e as [statusReply fetchReply | fetchReply | tick | view | b
                | | | | ]; simpl;
    try (exists []; split; [symmetry; apply app_nil_r | constructor]).
  - unfold handleToggleOnline, pollingEffect. simpl.
    destruct statusReply as [[] | e]; simpl.
    + destruct online; simpl.
      * exists [Api.updateOnlineStatus_request false].
        split; [reflexivity|].
        constructor; [right; exists false; reflexivity | constructor].
      * exists [Api.updateOnlineStatus_request true;
                Api.getBookingRequests_request].
        split.
        { destruct fetchReply; simpl; rewrite <- app_assoc; reflexivity. }
        constructor; [right; exists true; reflexivity|].
        constructor; [left; reflexivity | constructor].
    + exists [Api.updateOnlineStatus_request (negb online)].
      split; [reflexivity|].
      constructor; [right; exists (negb online); reflexivity | constructor].
  - destruct interval as [period|]; simpl.
    + exists [Api.getBookingRequests_request].
      split; [destruct fetchReply; reflexivity|].
      constructor; [left; reflexivity | constructor].
    + exists []. split; [symmetry; apply app_nil_r | constructor].
  - exists []. split; [|constructor].
    destruct visible; simpl; [destruct selected; simpl|];
      symmetry; apply app_nil_r.
  - exists []. split; [|constructor].
    destruct (hasTopCard _); simpl; symmetry; apply app_nil_r.
  - exists []. split; [|constructor].
    destruct (hasTopCard _); simpl; [|symmetry; apply app_nil_r].
    unfold BookingSliderView.handleSwipeRight. simpl.
    destruct (nth_error held index); simpl; symmetry; apply app_nil_r.
Qed.

Lemma allowed_not_accept (requests : list Api.Request) :
  Forall (fun r => r = Api.getBookingRequests_request
                   \/ exists status,
                        r = Api.updateOnlineStatus_request status)
    requests ->
  filter Api.is_accept_request requests = [].
Proof.
  induction 1 as [|r rs Hr _ IH]; [reflexivity|].
  simpl. destruct Hr as [-> | [status ->]]; simpl; exact IH.
Qed.

(** X6. Whatever sequence of events the dashboard screen goes through, from
    any state, the requests it has sent only grow, and every request it
    adds is either the listing of booking requests or an online-status
    update; in particular it never calls the accept endpoint. *)
Theorem X6_requests_sent (w : World) (es : list Event) :
  exists sent_now,
    network (run w es) = (network w ++ sent_now)%list
    /\ Forall (fun r => r = Api.getBookingRequests_request
                        \/ exists status,
                             r = Api.updateOnlineStatus_request status)
         sent_now
    /\ accept_calls (run w es) = accept_calls w.
Proof.
  induction es as [|e es IH] using rev_ind.
  - exists []. split; [symmetry; apply app_nil_r|].
    split; [constructor | reflexivity].
  - destruct IH as (before & Hnet & Hall & Hacc).
    rewrite run_snoc. unfold step.
    destruct (commit_keeps (handle e (run w es)))
      as (_ & _ & _ & _ & _ & _ & _ & En & _).
    destruct (handle_sends (run w es) e) as (now_ & Hnow & Hall').
    exists (before ++ now_)%list.
    assert (Hnet' : network (commit (handle e (run w es)))
                    = (network w ++ before ++ now_)%list).
    { rewrite En, Hnow, Hnet, app_assoc. reflexivity. }
    split; [exact Hnet'|].
    split; [apply Forall_app; split; assumption|].
    unfold accept_calls. rewrite Hnet'.
    rewrite !filter_app.
    rewrite (allowed_not_accept _ Hall), (allowed_not_accept _ Hall').
    rewrite !app_nil_r. reflexivity.
Qed.

(** ** The two projections *)

Lemma sliderMounted_setViewMode_list (w : World) :
  sliderMounted (setViewMode list_view w) = false.
Proof.
  unfold sliderMounted, bookingArea. simpl.
  destruct (isOnline w); simpl; [|reflexivity].
  destruct (bookingRequests w); reflexivity.
Qed.

(** X7. Choosing a view changes neither the Offer Set, nor what was sent,
    nor the polling, nor the rows of the list projection.  But the stack
    forgets its position when it leaves the screen: after a switch to the
    list and back the stack starts again at the first offer, dismissed
    offers included; choosing the stack while it is on screen changes
    nothing. *)
Theorem X7_view_switch (w : World) (mode : ViewMode) :
  let w' := step w (ChooseView mode) in
  bookingRequests w' = bookingRequests w
  /\ network w' = network w
  /\ pollInterval w' = pollInterval w
  /\ isOnline w' = isOnline w
  /\ listProjection w' = listProjection w
  /\ currentIndex (run w [ChooseView list_view; ChooseView slider_view])
     = 0%nat
  /\ stackProjection (run w [ChooseView list_view; ChooseView slider_view])
     = BookingSliderView.BookingSliderView (clock w) (bookingRequests w) 0
  /\ (sliderMounted w = true -> step w (ChooseView slider_view) = w).
Proof.
  intro w'. subst w'. unfold step.
  destruct (commit_keeps (handle (ChooseView mode) w))
    as (Eon & _ & Eb & _ & _ & Ep & Ec & En & _).
  split; [rewrite Eb; reflexivity|].
  split; [rewrite En; reflexivity|].
  split; [rewrite Ep; reflexivity|].
  split; [rewrite Eon; reflexivity|].
  split; [unfold listProjection; rewrite Eb, Ec; reflexivity|].
  assert (Hback : currentIndex
                    (run w [ChooseView list_view; ChooseView slider_view])
                  = 0%nat).
  { unfold run. simpl. unfold step. simpl.
    unfold commit at 2. rewrite sliderMounted_setViewMode_list.
    unfold commit. destruct (sliderMounted _); reflexivity. }
  split; [exact Hback|].
  split.
  { unfold stackProjection. rewrite Hback.
    unfold run. simpl. unfold step.
    destruct (commit_keeps
                (handle (ChooseView slider_view)
                   (commit (handle (ChooseView list_view) w))))
      as (_ & _ & -> & _ & _ & _ & -> & _).
    simpl.
    destruct (commit_keeps (setViewMode list_view w))
      as (_ & _ & -> & _ & _ & _ & -> & _).
    reflexivity. }
  intro Hon. simpl.
  assert (Hmode : viewMode w = slider_view).
  { unfold sliderMounted, bookingArea in Hon.
    destruct (isOnline w); simpl in Hon; [|discriminate].
    destruct (bookingRequests w); [discriminate|].
    destruct (viewMode w); [discriminate | reflexivity]. }
  assert (Hsame : setViewMode slider_view w = w).
  { clear - Hmode.
    destruct w as [online view held selected visible index interval now
                   sent shown logged].
    simpl in Hmode. subst view. reflexivity. }
  rewrite Hsame. unfold commit. rewrite Hon. reflexivity.
Qed.

Lemma X7_view_switch_witness :
  sliderMounted (step (Sample.swiping [Sample.O1; Sample.O2]) SwipeLeft)
  = true
  /\ currentIndex (step (Sample.swiping [Sample.O1; Sample.O2]) SwipeLeft)
     = 1%nat
  /\ step (step (Sample.swiping [Sample.O1; Sample.O2]) SwipeLeft)
       (ChooseView slider_view)
     = step (Sample.swiping [Sample.O1; Sample.O2]) SwipeLeft
  /\ currentIndex
       (run (step (Sample.swiping [Sample.O1; Sample.O2]) SwipeLeft)
          [ChooseView list_view; ChooseView slider_view])
     = 0%nat.
Proof.
  assert (H : sliderMounted
                (step (Sample.swiping [Sample.O1; Sample.O2]) SwipeLeft)
              = true) by reflexivity.
  split; [exact H|]. split; [reflexivity|].
  split.
  - exact (proj2 (proj2 (proj2 (proj2 (proj2 (proj2 (proj2
             (X7_view_switch
                (step (Sample.swiping [Sample.O1; Sample.O2]) SwipeLeft)
                list_view))))))) H).
  - exact (proj1 (proj2 (proj2 (proj2 (proj2 (proj2
             (X7_view_switch
                (step (Sample.swiping [Sample.O1; Sample.O2]) SwipeLeft)
                list_view))))))).
Defined.

Lemma slice_two {A : Type} (i : nat) (l : list A) :
  Js.slice i (i + 2) l = firstn 2 (skipn i l).
Proof.
  unfold Js.slice. replace (i + 2 - i)%nat with 2%nat by lia. reflexivity.
Qed.

(** The cards of the stack, by what is left of the bookings from the
    current position on. *)
Lemma stack_cases (now : Z) (bookings : list Booking) (ci : nat) :
  BookingSliderView.BookingSliderView now bookings ci
  = match skipn ci bookings with
    | [] => []
    | [a] => [BookingSliderView.BookingCard now a false]
    | a :: b :: _ =>
        [BookingSliderView.BookingCard now b false;
         BookingSliderView.BookingCard now a true]
    end.
Proof.
  destruct bookings as [|b0 bs]; [destruct ci; reflexivity|].
  unfold BookingSliderView.BookingSliderView. rewrite slice_two.
  destruct (skipn ci (b0 :: bs)) as [|a [|b rest]]; reflexivity.
Qed.

(** X8. The stack renders at most two cards: the offers at the current
    position and at the next one.  A card takes input (is flagged as top
    card) only when both exist, and it is then the card of the offer at the
    current position; when the offer at the current position is the last
    one, its card is rendered without that flag, so the last offer of the
    set can be neither accepted nor dismissed from the stack. *)
Theorem X8_stack_cards (w : World) (now : Z) (bookings : list Booking)
  (ci : nat) :
  let cards := BookingSliderView.BookingSliderView now bookings ci in
  List.length cards = Nat.min 2 (List.length bookings - ci)
  /\ (forall card,
        In card cards -> BookingSliderView.isTopCard card = true ->
        nth_error bookings ci = Some (BookingSliderView.card_booking card)
        /\ (ci + 1 < List.length bookings)%nat)
  /\ ((ci + 1 < List.length bookings)%nat ->
      exists card, In card cards /\ BookingSliderView.isTopCard card = true)
  /\ (List.length bookings = (ci + 1)%nat ->
      exists b,
        nth_error bookings ci = Some b
        /\ cards = [BookingSliderView.BookingCard now b false])
  /\ (hasTopCard w = true ->
      (currentIndex w + 1 < List.length (bookingRequests w))%nat)
  /\ (List.length (bookingRequests w) = (currentIndex w + 1)%nat ->
      step w SwipeLeft = commit w /\ step w SwipeRight = commit w).
Proof.
  intro cards. subst cards.
  assert (Hshape : forall now' bs i,
    let cards := BookingSliderView.BookingSliderView now' bs i in
    List.length cards = Nat.min 2 (List.length bs - i)
    /\ (forall card,
          In card cards -> BookingSliderView.isTopCard card = true ->
          nth_error bs i = Some (BookingSliderView.card_booking card)
          /\ (i + 1 < List.length bs)%nat)
    /\ ((i + 1 < List.length bs)%nat ->
        exists card,
          In card cards /\ BookingSliderView.isTopCard card = true)
    /\ (List.length bs = (i + 1)%nat ->
        exists b,
          nth_error bs i = Some b
          /\ cards = [BookingSliderView.BookingCard now' b false])).
  { intros now' bs i cards. subst cards. rewrite stack_cases.
    pose proof (length_skipn i bs) as Hlen.
    pose proof (hd_error_skipn i bs) as Hhd.
    destruct (skipn i bs) as [|a [|b rest]];
      cbn [List.length hd_error] in Hlen, Hhd |- *.
    - split; [lia|]. split; [intros card []|].
      split; [intro H; lia | intro H; lia].
    - split; [lia|].
      split; [intros card [<- | []] Htop; discriminate Htop|].
      split; [intro H; lia|].
      intros _. exists a. split; [symmetry; exact Hhd | reflexivity].
    - split; [lia|].
      split.
      { intros card [<- | [<- | []]] Htop; [discriminate Htop|].
        simpl. split; [symmetry; exact Hhd | lia]. }
      split; [|intro H; lia].
      intros _. exists (BookingSliderView.BookingCard now' a true).
      split; [right; left; reflexivity | reflexivity]. }
  destruct (Hshape now bookings ci) as (H1 & H2 & H3 & H4).
  split; [exact H1|]. split; [exact H2|]. split; [exact H3|].
  split; [exact H4|].
  assert (Htop : hasTopCard w = true ->
                 (currentIndex w + 1 < List.length (bookingRequests w))%nat).
  { unfold hasTopCard. intro H. apply andb_true_iff in H.
    destruct H as [_ H]. apply existsb_exists in H.
    destruct H as [card [Hin Hflag]].
    exact (proj2 (proj1 (proj2
             (Hshape (clock w) (bookingRequests w) (currentIndex w)))
             card Hin Hflag)). }
  split; [exact Htop|].
  intro Hlast.
  assert (Hno : hasTopCard w = false).
  { destruct (hasTopCard w) eqn:E; [|reflexivity].
    specialize (Htop eq_refl). lia. }
  unfold step. simpl. rewrite Hno. split; reflexivity.
Qed.

Lemma X8_stack_cards_witness :
  List.length (bookingRequests (Sample.swiping [Sample.O1]))
  = (currentIndex (Sample.swiping [Sample.O1]) + 1)%nat
  /\ step (Sample.swiping [Sample.O1]) SwipeRight
     = commit (Sample.swiping [Sample.O1]).
Proof.
  assert (H : List.length (bookingRequests (Sample.swiping [Sample.O1]))
              = (currentIndex (Sample.swiping [Sample.O1]) + 1)%nat)
    by reflexivity.
  split; [exact H|].
  exact (proj2 (proj2 (proj2 (proj2 (proj2 (proj2
           (X8_stack_cards (Sample.swiping [Sample.O1]) 0 [] 0%nat)))))
           H)).
Defined.

(** X9. With a non-empty set of bookings, the stack view shows the "All
    caught up!" panel exactly when the position has moved past the last
    booking, which is exactly when it renders no card: it never shows the
    panel over a card, and never shows nothing. *)
Theorem X9_all_caught_up (now : Z) (b : Booking) (bookings : list Booking)
  (ci : nat) :
  let cards := BookingSliderView.BookingSliderView now (b :: bookings) ci in
  (BookingSliderView.allCaughtUp (b :: bookings) ci = true
   <-> (List.length (b :: bookings) <= ci)%nat)
  /\ (BookingSliderView.allCaughtUp (b :: bookings) ci = true
      <-> cards = [])
  /\ BookingSliderView.allCaughtUp [] ci = false
  /\ BookingSliderView.BookingSliderView now [] ci = [].
Proof.
  intro cards. subst cards.
  assert (Hleb : BookingSliderView.allCaughtUp (b :: bookings) ci = true
                 <-> (List.length (b :: bookings) <= ci)%nat).
  { unfold BookingSliderView.allCaughtUp. apply Nat.leb_le. }
  split; [exact Hleb|].
  split; [|split; reflexivity].
  rewrite Hleb, stack_cases.
  pose proof (length_skipn ci (b :: bookings)) as Hlen.
  destruct (skipn ci (b :: bookings)) as [|x [|y rest]];
    cbn [List.length] in Hlen |- *.
  - split; [reflexivity | intros _; lia].
  - split; [intro H; lia | discriminate].
  - split; [intro H; lia | discriminate].
Qed.

Lemma mounted_inv (w : World) :
  sliderMounted w = true ->
  isOnline w = true /\ viewMode w = slider_view /\ bookingRequests w <> [].
Proof.
  unfold sliderMounted, bookingArea. intro H.
  destruct (isOnline w); simpl in H; [|discriminate].
  destruct (bookingRequests w); [discriminate|].
  destruct (viewMode w); [discriminate|].
  repeat split. discriminate.
Qed.

(** X10. The stack keeps its place by position, not by offer: a refresh
    that returns a non-empty set while the stack is on screen leaves the
    position where it was, so the stack then shows the offers of the new
    set at that position, whichever they are; a refresh that returns the
    empty set takes the stack off the screen and the position back to 0. *)
Theorem X10_refresh_keeps_position (w : World) (b : Booking)
  (fetched : list Booking) (period : Z)
  (Hmounted : sliderMounted w = true)
  (Hlive : pollInterval w = Some period) :
  let refreshed := step w (PollTick (Sample.reply (b :: fetched))) in
  let emptied := step w (PollTick (Sample.reply [])) in
  currentIndex refreshed = currentIndex w
  /\ stackProjection refreshed
     = BookingSliderView.BookingSliderView (clock w) (b :: fetched)
         (currentIndex w)
  /\ currentIndex emptied = 0%nat
  /\ bookingArea emptied = NoBookingsMessage.
Proof.
  intros refreshed emptied. subst refreshed emptied.
  destruct (mounted_inv w Hmounted) as (Hon & Hmode & _).
  unfold step. simpl. rewrite Hlive.
  break_world w. simpl in Hon, Hmode. subst online mode.
  repeat split; reflexivity.
Qed.

Lemma X10_refresh_keeps_position_witness :
  sliderMounted (step (Sample.swiping [Sample.O1; Sample.O2]) SwipeLeft)
  = true
  /\ pollInterval (step (Sample.swiping [Sample.O1; Sample.O2]) SwipeLeft)
     = Some 5000
  /\ map BookingSliderView.card_key
       (stackProjection
          (step (step (Sample.swiping [Sample.O1; Sample.O2]) SwipeLeft)
             (PollTick (Sample.reply [Sample.O2; Sample.documented]))))
     = ["507f1f77bcf86cd799439011"].
Proof.
  assert (Hm : sliderMounted
                 (step (Sample.swiping [Sample.O1; Sample.O2]) SwipeLeft)
               = true) by reflexivity.
  assert (Hl : pollInterval
                 (step (Sample.swiping [Sample.O1; Sample.O2]) SwipeLeft)
               = Some 5000) by reflexivity.
  split; [exact Hm|]. split; [exact Hl|].
  rewrite (proj1 (proj2
             (X10_refresh_keeps_position
                (step (Sample.swiping [Sample.O1; Sample.O2]) SwipeLeft)
                Sample.O2 [Sample.documented] 5000 Hm Hl))).
  reflexivity.
Defined.

(** X11. Only pressing a booking, closing the modal or accepting changes
    what the detail modal shows: refreshes (also one that drops the selected
    booking), going offline (which empties the Offer Set), countdown ticks,
    view switches and dismissals leave the selected booking and the
    visibility of the modal as they were. *)
Theorem X11_modal_outlives_offer (w : World) (e : Event)
  (Hother : match e with
            | PressBooking _ | CloseModal | ModalAccept | SwipeRight => False
            | _ => True
            end) :
  selectedBooking (step w e) = selectedBooking w
  /\ isModalVisible (step w e) = isModalVisible w
  /\ (forall now,
        BookingDetailModal.BookingDetailModal now (isModalVisible (step w e))
          (selectedBooking (step w e))
        = BookingDetailModal.BookingDetailModal now (isModalVisible w)
            (selectedBooking w)).
Proof.
  assert (H : selectedBooking (step w e) = selectedBooking w
              /\ isModalVisible (step w e) = isModalVisible w).
  { unfold step.
    destruct (commit_keeps (handle e w)) as (_ & _ & _ & -> & -> & _).
    break_world w.
    destruct e as [statusReply fetchReply | fetchReply | tick | view | b
                  | | | | ]; simpl in Hother |- *; try contradiction.
    - unfold handleToggleOnline, pollingEffect. simpl.
      destruct statusReply as [[] | e]; simpl; [|split; reflexivity].
      destruct online; simpl; [split; reflexivity|].
      destruct fetchReply; split; reflexivity.
    - destruct interval; simpl; [|split; reflexivity].
      destruct fetchReply; split; reflexivity.
    - split; reflexivity.
    - split; reflexivity.
    - destruct (hasTopCard _); split; reflexivity. }
  destruct H as [Hs Hv].
  split; [exact Hs|]. split; [exact Hv|].
  intro now. rewrite Hs, Hv. reflexivity.
Qed.

Lemma X11_modal_outlives_offer_witness :
  selectedBooking
    (step (step (Sample.online [Sample.O1; Sample.O2])
             (PressBooking Sample.O1))
       (PollTick (Sample.reply [Sample.O2])))
  = Some Sample.O1.
Proof.
  rewrite (proj1
             (X11_modal_outlives_offer
                (step (Sample.online [Sample.O1; Sample.O2])
                   (PressBooking Sample.O1))
                (PollTick (Sample.reply [Sample.O2])) I)).
  reflexivity.
Defined.

(** ** The active-ride screen *)

Section ActiveRide.

Import ActiveRideScreen.

Variable bookingData : BookingData.

Lemma progress_bound (status : RideStatus) : (progress status <= 3)%nat.
Proof. destruct status; simpl; lia. Qed.

Lemma ride_step_progress (s : Screen) (e : Event) :
  progress (rideStatus (step bookingData s e))
  = Nat.min 3 (progress (rideStatus s) + confirmations [e]).
Proof.
  destruct s as [status instr minutes seconds shown opened].
  destruct e as [[|]|]; destruct status; try reflexivity.
  unfold step, waitingTick; simpl.
  destruct (Nat.eqb seconds 59); reflexivity.
Qed.

Lemma confirmations_cons (e : Event) (es : list Event) :
  confirmations (e :: es) = (confirmations [e] + confirmations es)%nat.
Proof.
  unfold confirmations. simpl.
  destruct e as [[|]|]; reflexivity.
Qed.

Lemma ride_run_progress (es : list Event) :
  forall s,
    progress (rideStatus (run bookingData s es))
    = Nat.min 3 (progress (rideStatus s) + confirmations es).
Proof.
  induction es as [|e es IH]; intro s.
  - change (run bookingData s []) with s.
    change (confirmations []) with 0%nat.
    pose proof (progress_bound (rideStatus s)). lia.
  - change (run bookingData s (e :: es))
      with (run bookingData (step bookingData s e) es).
    rewrite IH, ride_step_progress, (confirmations_cons e es). lia.
Qed.

Lemma ride_step_pushed (s : Screen) (e : Event) :
  pushed (step bookingData s e)
  = (pushed s
     ++ (if Nat.ltb (progress (rideStatus s)) 3
            && Nat.leb 3 (progress (rideStatus s) + confirmations [e])
         then [completion bookingData] else []))%list.
Proof.
  destruct s as [status instr minutes seconds shown opened].
  destruct e as [[|]|]; destruct status; simpl;
    try reflexivity; try (symmetry; apply app_nil_r).
  unfold waitingTick. simpl.
  destruct (Nat.eqb seconds 59); symmetry; apply app_nil_r.
Qed.

Lemma ride_run_pushed (es : list Event) :
  forall s,
    pushed (run bookingData s es)
    = (pushed s
       ++ (if Nat.ltb (progress (rideStatus s)) 3
              && Nat.leb 3 (progress (rideStatus s) + confirmations es)
           then [completion bookingData] else []))%list.
Proof.
  induction es as [|e es IH]; intro s.
  - pose proof (progress_bound (rideStatus s)) as Hb.
    change (run bookingData s []) with s.
    change (confirmations []) with 0%nat.
    destruct (Nat.ltb_spec (progress (rideStatus s)) 3) as [Hlt|Hge];
      cbn [andb]; [|symmetry; apply app_nil_r].
    destruct (Nat.leb_spec 3 (progress (rideStatus s) + 0)) as [H|H];
      [lia | symmetry; apply app_nil_r].
  - change (run bookingData s (e :: es))
      with (run bookingData (step bookingData s e) es).
    rewrite IH, ride_step_pushed, ride_step_progress,
      (confirmations_cons e es).
    rewrite <- app_assoc. f_equal.
    set (p := progress (rideStatus s)).
    set (c := confirmations [e]). set (k := confirmations es).
    assert (Hc : (c <= 1)%nat).
    { unfold c, confirmations. simpl. destruct e as [[|]|]; simpl; lia. }
    destruct (Nat.ltb_spec p 3) as [Hp|Hp];
      destruct (Nat.leb_spec 3 (p + c)) as [Hpc|Hpc];
      destruct (Nat.ltb_spec (Nat.min 3 (p + c)) 3) as [Hm|Hm];
      destruct (Nat.leb_spec 3 (Nat.min 3 (p + c) + k)) as [Hk|Hk];
      destruct (Nat.leb_spec 3 (p + (c + k))) as [Ht|Ht];
      simpl; try reflexivity; lia.
Qed.

(** X12. The main button moves the ride through its four statuses in one
    fixed order and never back: after any sequence of presses (each
    confirmed or cancelled in its alert) and timer ticks, the ride is as
    many statuses on as there were confirmations, at most three.  At the
    dropoff the button does nothing, and this is exactly when it is
    labelled "Done". *)
Theorem X12_ride_progress (s : Screen) (es : list Event) :
  progress (rideStatus (run bookingData s es))
  = Nat.min 3 (progress (rideStatus s) + confirmations es)
  /\ (progress (rideStatus s)
      <= progress (rideStatus (run bookingData s es)))%nat
  /\ (forall pressed,
        rideStatus s = at_dropoff ->
        handleArrived bookingData pressed s = s)
  /\ (getButtonText s = "Done"%string <-> rideStatus s = at_dropoff).
Proof.
  pose proof (progress_bound (rideStatus s)) as Hb.
  split; [apply ride_run_progress|].
  split; [rewrite ride_run_progress; lia|].
  split.
  - intros pressed Hend. unfold handleArrived. rewrite Hend.
    destruct pressed; reflexivity.
  - unfold getButtonText.
    destruct (rideStatus s); split; intro H; try discriminate H; reflexivity.
Qed.

(** X13. From the first render of the screen, the ride-completed screen is
    opened at most once, with the completion data of the booking: exactly
    when the third confirmation has happened, that is, exactly when the
    ride is at the dropoff; further presses never open it again. *)
Theorem X13_completed_once (es : list Event) :
  let s := run bookingData initial es in
  pushed s
  = (if Nat.leb 3 (confirmations es) then [completion bookingData] else [])
  /\ (pushed s <> [] <-> rideStatus s = at_dropoff)
  /\ (List.length (pushed s) <= 1)%nat.
Proof.
  intro s. subst s.
  pose proof (ride_run_pushed es initial) as Hp.
  pose proof (ride_run_progress es initial) as Hr.
  change (progress (rideStatus initial)) with 0%nat in Hp, Hr.
  change (pushed initial) with (@nil RideCompletionData) in Hp.
  change (Nat.ltb 0 3) with true in Hp.
  cbn [andb app Nat.add] in Hp, Hr.
  rewrite Hp.
  split; [reflexivity|].
  destruct (Nat.leb_spec 3 (confirmations es)) as [H|H].
  - split; [|simpl; lia].
    split; [intros _ | discriminate].
    destruct (rideStatus (run bookingData initial es));
      cbn [progress] in Hr; try lia. reflexivity.
  - split; [|simpl; lia].
    split; [intro Hne; contradiction|].
    intro Hend. rewrite Hend in Hr. cbn [progress] in Hr. lia.
Qed.

Lemma waiting_tick_total (s : Screen) :
  rideStatus s = at_pickup ->
  (waitingSeconds s <= 59)%nat ->
  rideStatus (waitingTick s) = at_pickup
  /\ (waitingSeconds (waitingTick s) <= 59)%nat
  /\ (waitingMinutes (waitingTick s) * 60 + waitingSeconds (waitingTick s)
      = waitingMinutes s * 60 + waitingSeconds s + 1)%nat.
Proof.
  destruct s as [status instr minutes seconds shown opened]. simpl.
  intros -> Hsec. unfold waitingTick. simpl.
  destruct (Nat.eqb_spec seconds 59) as [-> | Hne]; simpl;
    repeat split; lia.
Qed.

(** X14. While the driver waits at the pickup, the two counters of the
    waiting time together count the ticks of the one-second interval: after
    n ticks they show n seconds more than before, as minutes and seconds,
    the seconds never above 59. *)
Theorem X14_waiting_time_counts (s : Screen) (n : nat)
  (Hat : rideStatus s = at_pickup)
  (Hsec : (waitingSeconds s <= 59)%nat) :
  let s' := run bookingData s (repeat WaitingTick n) in
  rideStatus s' = at_pickup
  /\ (waitingSeconds s' <= 59)%nat
  /\ (waitingMinutes s' * 60 + waitingSeconds s'
      = waitingMinutes s * 60 + waitingSeconds s + n)%nat.
Proof.
  revert s Hat Hsec. induction n as [|n IH]; intros s Hat Hsec.
  - simpl. repeat split; [exact Hat | exact Hsec | lia].
  - change (run bookingData s (repeat WaitingTick (S n)))
      with (run bookingData (waitingTick s) (repeat WaitingTick n)).
    destruct (waiting_tick_total s Hat Hsec) as (Hat' & Hsec' & Htot).
    destruct (IH (waitingTick s) Hat' Hsec') as (H1 & H2 & H3).
    cbv zeta. repeat split; [exact H1 | exact H2 | lia].
Qed.

Lemma ride_step_waiting (s : Screen) (e : Event) :
  (waitingSeconds s <= 59)%nat ->
  (rideStatus s <> at_pickup ->
   waitingMinutes s = 0%nat /\ waitingSeconds s = 0%nat) ->
  (waitingSeconds (step bookingData s e) <= 59)%nat
  /\ (rideStatus (step bookingData s e) <> at_pickup ->
      waitingMinutes (step bookingData s e) = 0%nat
      /\ waitingSeconds (step bookingData s e) = 0%nat).
Proof.
  destruct s as [status instr minutes seconds shown opened]. simpl.
  intros Hsec Haway.
  destruct e as [[|]|]; simpl.
  - split; assumption.
  - destruct status; simpl.
    + destruct Haway as [-> ->]; [discriminate|].
      split; [lia | intro H; contradiction].
    + split; [lia | intros _; split; reflexivity].
    + split; [lia | intros _; split; reflexivity].
    + split; assumption.
  - unfold waitingTick. simpl.
    destruct status; simpl; try (split; assumption).
    destruct (Nat.eqb_spec seconds 59); simpl;
      (split; [lia | intro H; contradiction]).
Qed.

(** X15. In every state the active-ride screen reaches from its first
    render, the waiting seconds are at most 59, and away from the pickup
    (before arriving and after the ride has started) both counters of the
    waiting time are 0: the wait of one pickup is never carried over. *)
Theorem X15_waiting_time_reset (es : list Event) :
  let s := run bookingData initial es in
  (waitingSeconds s <= 59)%nat
  /\ (rideStatus s <> at_pickup ->
      waitingMinutes s = 0%nat /\ waitingSeconds s = 0%nat).
Proof.
  induction es as [|e es IH] using rev_ind.
  - simpl. split; [lia | intros _; split; reflexivity].
  - cbv zeta in *. unfold run in *. rewrite fold_left_app. simpl.
    destruct IH as [Hsec Haway].
    exact (ride_step_waiting _ e Hsec Haway).
Qed.

End ActiveRide.

Lemma X12_ride_progress_witness :
  ActiveRideScreen.rideStatus Sample.arrived = ActiveRideScreen.at_dropoff
  /\ ActiveRideScreen.handleArrived Sample.ride
       ActiveRideScreen.ConfirmButton Sample.arrived
     = Sample.arrived.
Proof.
  assert (H : ActiveRideScreen.rideStatus Sample.arrived
              = ActiveRideScreen.at_dropoff) by reflexivity.
  split; [exact H|].
  exact (proj1 (proj2 (proj2
           (X12_ride_progress Sample.ride Sample.arrived [])))
           ActiveRideScreen.ConfirmButton H).
Defined.

Lemma X14_waiting_time_counts_witness :
  ActiveRideScreen.rideStatus Sample.waiting = ActiveRideScreen.at_pickup
  /\ (ActiveRideScreen.waitingSeconds Sample.waiting <= 59)%nat
  /\ (ActiveRideScreen.waitingMinutes
        (ActiveRideScreen.run Sample.ride Sample.waiting
           (repeat ActiveRideScreen.WaitingTick 75)) * 60
      + ActiveRideScreen.waitingSeconds
          (ActiveRideScreen.run Sample.ride Sample.waiting
             (repeat ActiveRideScreen.WaitingTick 75))
      = ActiveRideScreen.waitingMinutes Sample.waiting * 60
        + ActiveRideScreen.waitingSeconds Sample.waiting + 75)%nat.
Proof.
  assert (Hat : ActiveRideScreen.rideStatus Sample.waiting
                = ActiveRideScreen.at_pickup) by reflexivity.
  assert (Hsec : (ActiveRideScreen.waitingSeconds Sample.waiting <= 59)%nat)
    by (vm_compute; lia).
  split; [exact Hat|]. split; [exact Hsec|].
  exact (proj2 (proj2
           (X14_waiting_time_counts Sample.ride Sample.waiting 75 Hat Hsec))).
Defined.

Lemma X15_waiting_time_reset_witness :
  ActiveRideScreen.rideStatus
    (ActiveRideScreen.run Sample.ride ActiveRideScreen.initial
       [ActiveRideScreen.PressMain ActiveRideScreen.ConfirmButton;
        ActiveRideScreen.WaitingTick; ActiveRideScreen.WaitingTick;
        ActiveRideScreen.PressMain ActiveRideScreen.ConfirmButton])
  <> ActiveRideScreen.at_pickup
  /\ ActiveRideScreen.waitingSeconds
       (ActiveRideScreen.run Sample.ride ActiveRideScreen.initial
          [ActiveRideScreen.PressMain ActiveRideScreen.ConfirmButton;
           ActiveRideScreen.WaitingTick; ActiveRideScreen.WaitingTick;
           ActiveRideScreen.PressMain ActiveRideScreen.ConfirmButton])
     = 0%nat.
Proof.
  assert (H : ActiveRideScreen.rideStatus
                (ActiveRideScreen.run Sample.ride ActiveRideScreen.initial
                   [ActiveRideScreen.PressMain ActiveRideScreen.ConfirmButton;
                    ActiveRideScreen.WaitingTick;
                    ActiveRideScreen.WaitingTick;
                    ActiveRideScreen.PressMain
                      ActiveRideScreen.ConfirmButton])
              <> ActiveRideScreen.at_pickup)
    by (vm_compute; discriminate).
  split; [exact H|].
  exact (proj2 (proj2
           (X15_waiting_time_reset Sample.ride
              [ActiveRideScreen.PressMain ActiveRideScreen.ConfirmButton;
               ActiveRideScreen.WaitingTick; ActiveRideScreen.WaitingTick;
               ActiveRideScreen.PressMain ActiveRideScreen.ConfirmButton])
           H)).
Defined.



(** ** From the active ride to the ride-completed screen *)

Lemma or_number_nonzero (a : option Q) (b : Q) :
  Qeq_bool b 0 = false -> Qeq_bool (Js.or_number a b) 0 = false.
Proof.
  intro Hb. unfold Js.or_number.
  destruct a as [x|]; [|exact Hb].
  destruct (Qeq_bool x 0) eqn:E; [exact Hb | exact E].
Qed.

Lemma or_number_again (x : Q) :
  (Js.or_number (Some x) 0 == x)%Q.
Proof.
  unfold Js.or_number. destruct (Qeq_bool x 0) eqn:E; [|reflexivity].
  apply Qeq_bool_eq in E. symmetry. exact E.
Qed.

(** X16. What the ride-completed screen shows for a ride finished on the
    active-ride screen: the total is the fare of the booking; the tip is
    the tip of the booking, or 1.50 when the booking has none or a tip of
    0; hence the "BONUS EARNED!" banner is always shown, unless the booking
    carries a negative tip; the payment method is that of the booking, or
    "Cash Payment"; the duration is the estimate of the booking, or 22. *)
Theorem X16_completed_ride_shown (bookingData : ActiveRideScreen.BookingData) :
  let rideData :=
    RideCompletedScreen.received (ActiveRideScreen.completion bookingData) in
  (RideCompletedScreen.totalFare rideData
   == fare (ActiveRideScreen.booking bookingData))%Q
  /\ (RideCompletedScreen.shownTip rideData
      == Js.or_number (ActiveRideScreen.tip bookingData) 1.5)%Q
  /\ (RideCompletedScreen.bonusShown rideData = true
      <-> ~ (exists t,
               ActiveRideScreen.tip bookingData = Some t /\ (t < 0)%Q))
  /\ RideCompletedScreen.paymentMethod rideData
     = Js.or_string (ActiveRideScreen.payment_method bookingData)
         "Cash Payment"
  /\ RideCompletedScreen.shownDuration rideData
     = Js.or_int
         (estimated_duration (ActiveRideScreen.booking bookingData)) 22.
Proof.
  intro rideData. subst rideData.
  destruct bookingData as [b tip method]. simpl.
  unfold RideCompletedScreen.totalFare, RideCompletedScreen.shownTip,
    RideCompletedScreen.bonusShown, RideCompletedScreen.paymentMethod,
    RideCompletedScreen.shownDuration. simpl.
  split; [apply or_number_again|].
  split; [apply or_number_again|].
  split.
  - unfold RideCompletedScreen.shownTip. simpl.
    rewrite gt_spec.
    pose proof (or_number_again (Js.or_number tip 1.5)) as Hsame.
    rewrite Hsame. clear Hsame.
    unfold Js.or_number.
    destruct tip as [t|].
    + destruct (Qeq_bool t 0) eqn:E.
      * apply Qeq_bool_eq in E.
        split; [|intros _; reflexivity].
        intros _ [t' [Ht' Hneg]]. injection Ht' as <-. lra.
      * apply Qeq_bool_neq in E.
        split.
        { intros Hpos [t' [Ht' Hneg]]. injection Ht' as <-. lra. }
        { intro Hnot. destruct (Qlt_le_dec 0 t) as [Hpos|Hle]; [exact Hpos|].
          exfalso. apply Hnot. exists t. split; [reflexivity|].
          apply Qle_lteq in Hle. destruct Hle as [Hlt|Heq]; [exact Hlt|].
          exfalso. apply E. exact Heq. }
    + split; [|intros _; reflexivity].
      intros _ [t' [Ht' _]]. discriminate Ht'.
  - split.
    + unfold Js.or_string.
      destruct method as [m|]; [|reflexivity].
      destruct (String.eqb m "") eqn:E; [reflexivity|]. rewrite E.
      reflexivity.
    + unfold Js.or_int.
      destruct (estimated_duration b) as [d|]; [|reflexivity].
      destruct (Z.eqb d 0) eqn:E; [reflexivity|]. rewrite E. reflexivity.
Qed.

Lemma X16_completed_ride_shown_witness :
  ~ (exists t, ActiveRideScreen.tip Sample.ride = Some t /\ (t < 0)%Q)
  /\ RideCompletedScreen.bonusShown
       (RideCompletedScreen.received (ActiveRideScreen.completion Sample.ride))
     = true.
Proof.
  assert (H : ~ (exists t,
                   ActiveRideScreen.tip Sample.ride = Some t /\ (t < 0)%Q))
    by (intros [t [Ht _]]; discriminate Ht).
  split; [exact H|].
  exact (proj2 (proj1 (proj2 (proj2
           (X16_completed_ride_shown Sample.ride)))) H).
Defined.

(** ** Loading the dashboard *)

(** X17. Loading the dashboard statistics always ends with the spinner
    off, and sends at most one request: exactly one, unless the lookup of
    the token inside the API call is rejected, in which case nothing is
    sent.  Every failure (a rejected lookup or a failed request) keeps the
    statistics shown and adds one error toast; a success shows the
    figures of the answer, 0 for a missing one.  Without a stored token
    (none, an empty one, or a failed lookup) nothing is requested: the
    screen is replaced by the login route. *)
Theorem X17_dashboard_load (call : Api.Call Api.StatsData)
  (c : DashboardLoad.Cells) (lookup : DashboardLoad.TokenLookup) :
  let loaded := DashboardLoad.loadDashboardData call c in
  let checked := DashboardLoad.checkAuthAndLoadData lookup call c in
  DashboardLoad.isLoading loaded = false
  /\ DashboardLoad.sent loaded
     = (DashboardLoad.sent c
        ++ match call with
           | Api.LookupRejected => []
           | Api.Requested _ => [Api.getDashboardData_request]
           end)%list
  /\ (call = Api.LookupRejected
      \/ (exists e, call = Api.Requested (Api.Failed e)) ->
      DashboardLoad.todayEarnings loaded = DashboardLoad.todayEarnings c
      /\ DashboardLoad.tripsCompleted loaded
         = DashboardLoad.tripsCompleted c
      /\ DashboardLoad.shown loaded
         = (DashboardLoad.shown c
            ++ [mkToast toast_error "Error"
                  "Failed to load dashboard data"])%list)
  /\ (forall data,
        call = Api.Requested (Api.Fulfilled data) ->
        DashboardLoad.shown loaded = DashboardLoad.shown c
        /\ DashboardLoad.todayEarnings loaded
           = Js.or_number (Api.today_earnings data) 0
        /\ DashboardLoad.tripsCompleted loaded
           = Js.or_number (Api.trips_completed data) 0)
  /\ (lookup = DashboardLoad.LookupFailed
      \/ lookup = DashboardLoad.Stored None
      \/ lookup = DashboardLoad.Stored (Some "") ->
      DashboardLoad.route checked = Some "/(auth)/login"
      /\ DashboardLoad.sent checked = DashboardLoad.sent c
      /\ DashboardLoad.isLoading checked = DashboardLoad.isLoading c)
  /\ (forall token,
        lookup = DashboardLoad.Stored (Some token) -> token <> "" ->
        checked = loaded).
Proof.
  intros loaded checked. subst loaded checked.
  split; [destruct call as [|[data|e]]; reflexivity|].
  split; [destruct call as [|[data|e]]; reflexivity|].
  split.
  { intros [-> | [e ->]]; repeat split; reflexivity. }
  split.
  { intros data ->. repeat split; reflexivity. }
  split.
  { intros [-> | [-> | ->]]; repeat split; reflexivity. }
  intros token -> Hne. unfold DashboardLoad.checkAuthAndLoadData.
  rewrite (or_string_takes _ _ Hne).
  apply String.eqb_neq in Hne. rewrite Hne. reflexivity.
Qed.

Lemma X17_dashboard_load_witness :
  DashboardLoad.sent
    (DashboardLoad.loadDashboardData Api.LookupRejected
       DashboardLoad.initial)
  = []
  /\ DashboardLoad.shown
       (DashboardLoad.loadDashboardData Api.LookupRejected
          DashboardLoad.initial)
     = [mkToast toast_error "Error" "Failed to load dashboard data"]
  /\ DashboardLoad.sent
       (DashboardLoad.checkAuthAndLoadData (DashboardLoad.Stored (Some ""))
          (Api.Requested (Api.Failed Api.WithRequest)) DashboardLoad.initial)
     = DashboardLoad.sent DashboardLoad.initial.
Proof.
  pose proof (X17_dashboard_load Api.LookupRejected DashboardLoad.initial
                (DashboardLoad.Stored (Some "")))
    as (_ & Hsent & Hfail & _).
  pose proof (X17_dashboard_load (Api.Requested (Api.Failed Api.WithRequest))
                DashboardLoad.initial (DashboardLoad.Stored (Some "")))
    as (_ & _ & _ & _ & Hnone & _).
  split; [exact Hsent|].
  split; [exact (proj2 (proj2 (Hfail (or_introl eq_refl))))|].
  exact (proj1 (proj2 (Hnone (or_intror (or_intror eq_refl))))).
Defined.

(** ** Formatting a phone number *)

Section PhoneNumber.

Import Validation.

Lemma filter_digits_id (l : list Ascii.ascii) :
  forallb isDigit l = true -> filter isDigit l = l.
Proof.
  induction l as [|c l IH]; simpl; [reflexivity|].
  intro H. apply andb_true_iff in H. destruct H as [Hc Hl].
  rewrite Hc, (IH Hl). reflexivity.
Qed.

Lemma removeNonDigits_digits (l : list Ascii.ascii) :
  forallb isDigit (removeNonDigits l) = true.
Proof.
  unfold removeNonDigits. apply forallb_forall.
  intros c Hc. apply filter_In in Hc. exact (proj2 Hc).
Qed.

Lemma forallb_firstn (n : nat) (l : list Ascii.ascii) :
  forallb isDigit l = true -> forallb isDigit (firstn n l) = true.
Proof.
  rewrite !forallb_forall. intros H c Hc. apply H.
  exact (in_firstn _ _ _ Hc).
Qed.

Lemma forallb_skipn (n : nat) (l : list Ascii.ascii) :
  forallb isDigit l = true -> forallb isDigit (skipn n l) = true.
Proof.
  rewrite !forallb_forall. intros H c Hc. apply H.
  rewrite <- (firstn_skipn n l). apply in_or_app. right. exact Hc.
Qed.

Lemma firstn_plus {A : Type} (a b : nat) (l : list A) :
  firstn (a + b) l = (firstn a l ++ firstn b (skipn a l))%list.
Proof.
  revert l. induction a as [|a IH]; intro l; [reflexivity|].
  destruct l as [|x l]; simpl.
  - destruct b; reflexivity.
  - rewrite IH. reflexivity.
Qed.

Lemma first_ten {A : Type} (l : list A) :
  (Js.slice 0 3 l ++ Js.slice 3 6 l ++ Js.slice 6 10 l)%list = firstn 10 l.
Proof.
  unfold Js.slice. change (skipn 0 l) with l.
  change (3 - 0)%nat with 3%nat. change (6 - 3)%nat with 3%nat.
  change (10 - 6)%nat with 4%nat.
  change 10%nat with (3 + (3 + 4))%nat.
  rewrite (firstn_plus 3 (3 + 4) l), (firstn_plus 3 4 (skipn 3 l)).
  rewrite skipn_skipn. reflexivity.
Qed.

(** The digits of the formatted text are the first ten digits given. *)
Lemma formatDigits_digits (numbers : list Ascii.ascii) :
  forallb isDigit numbers = true ->
  removeNonDigits (formatDigits numbers) = firstn 10 numbers.
Proof.
  intro Hd. unfold formatDigits, removeNonDigits. cbv zeta.
  destruct (Nat.eqb_spec (List.length numbers) 0) as [H0|H0].
  { destruct numbers; [reflexivity | discriminate H0]. }
  destruct (Nat.leb_spec (List.length numbers) 3) as [H3|H3].
  { rewrite filter_app.
    change (filter isDigit (chars "(")) with (@nil Ascii.ascii).
    cbn [app]. rewrite (filter_digits_id _ Hd).
    symmetry. apply firstn_all2. lia. }
  destruct (Nat.leb_spec (List.length numbers) 6) as [H6|H6].
  { rewrite !filter_app.
    change (filter isDigit (chars "(")) with (@nil Ascii.ascii).
    change (filter isDigit (chars ") ")) with (@nil Ascii.ascii).
    cbn [app].
    change (Js.slice 0 3 numbers) with (firstn 3 numbers).
    rewrite (filter_digits_id _ (forallb_firstn 3 _ Hd)).
    rewrite (filter_digits_id _ (forallb_skipn 3 _ Hd)).
    rewrite firstn_skipn. symmetry. apply firstn_all2. lia. }
  rewrite !filter_app.
  change (filter isDigit (chars "(")) with (@nil Ascii.ascii).
  change (filter isDigit (chars ") ")) with (@nil Ascii.ascii).
  change (filter isDigit (chars "-")) with (@nil Ascii.ascii).
  cbn [app].
  rewrite <- (first_ten numbers).
  unfold Js.slice.
  rewrite !filter_digits_id;
    try (apply forallb_firstn; apply forallb_skipn; exact Hd).
  reflexivity.
Qed.

Lemma slice_of_firstn {A : Type} (s e k : nat) (l : list A) :
  (e <= k)%nat -> Js.slice s e (firstn k l) = Js.slice s e l.
Proof.
  intro H. unfold Js.slice.
  rewrite skipn_firstn_comm, firstn_firstn.
  f_equal. lia.
Qed.

Lemma formatDigits_first_ten (numbers : list Ascii.ascii) :
  formatDigits (firstn 10 numbers) = formatDigits numbers.
Proof.
  destruct (Nat.le_gt_cases (List.length numbers) 10) as [Hle|Hgt].
  { rewrite firstn_all2 by exact Hle. reflexivity. }
  unfold formatDigits. cbv zeta.
  rewrite length_firstn.
  replace (Nat.min 10 (List.length numbers)) with 10%nat by lia.
  destruct (Nat.eqb_spec (List.length numbers) 0) as [H0|H0]; [lia|].
  destruct (Nat.leb_spec (List.length numbers) 3) as [H3|H3]; [lia|].
  destruct (Nat.leb_spec (List.length numbers) 6) as [H6|H6]; [lia|].
  simpl Nat.eqb. simpl Nat.leb. cbv iota.
  rewrite !slice_of_firstn by lia. reflexivity.
Qed.

Lemma formatDigits_length (numbers : list Ascii.ascii) :
  (List.length (formatDigits numbers) <= 14)%nat.
Proof.
  unfold formatDigits. cbv zeta.
  destruct (Nat.eqb_spec (List.length numbers) 0) as [H0|H0]; [simpl; lia|].
  destruct (Nat.leb_spec (List.length numbers) 3) as [H3|H3].
  { rewrite length_app.
    change (List.length (chars "(")) with 1%nat. lia. }
  destruct (Nat.leb_spec (List.length numbers) 6) as [H6|H6].
  { rewrite !length_app. unfold Js.slice.
    rewrite length_firstn, !length_skipn.
    change (List.length (chars "(")) with 1%nat.
    change (List.length (chars ") ")) with 2%nat. lia. }
  rewrite !length_app. unfold Js.slice.
  rewrite !length_firstn, !length_skipn.
  change (List.length (chars "(")) with 1%nat.
  change (List.length (chars ") ")) with 2%nat.
  change (List.length (chars "-")) with 1%nat. lia.
Qed.

Lemma formatDigits_nil (numbers : list Ascii.ascii) :
  formatDigits numbers = [] <-> numbers = [].
Proof.
  unfold formatDigits. cbv zeta.
  split.
  - destruct (Nat.eqb_spec (List.length numbers) 0) as [H0|H0].
    { intros _. destruct numbers; [reflexivity | discriminate H0]. }
    destruct (Nat.leb (List.length numbers) 3); [discriminate|].
    destruct (Nat.leb (List.length numbers) 6); discriminate.
  - intros ->. reflexivity.
Qed.

Lemma string_length_chars (l : list Ascii.ascii) :
  String.length (string_of_list_ascii l) = List.length l.
Proof.
  induction l as [|c l IH]; simpl; [reflexivity|].
  rewrite IH. reflexivity.
Qed.

(** X18. Formatting a phone number keeps the first ten digits of the text,
    in order, and nothing else of it; the result is empty exactly when the
    text has no digit, it is at most 14 characters long, and formatting it
    again changes nothing, so the formatter can be run on its own output at
    every keystroke. *)
Theorem X18_format_phone_number (value : string) :
  removeNonDigits (chars (formatPhoneNumber value))
  = firstn 10 (removeNonDigits (chars value))
  /\ formatPhoneNumber (formatPhoneNumber value) = formatPhoneNumber value
  /\ (formatPhoneNumber value = ""%string
      <-> removeNonDigits (chars value) = [])
  /\ (String.length (formatPhoneNumber value) <= 14)%nat.
Proof.
  unfold formatPhoneNumber, chars.
  set (numbers := removeNonDigits (list_ascii_of_string value)).
  assert (Hd : forallb isDigit numbers = true)
    by apply removeNonDigits_digits.
  rewrite !list_ascii_of_string_of_list_ascii.
  rewrite (formatDigits_digits numbers Hd).
  split; [reflexivity|].
  split; [rewrite formatDigits_first_ten; reflexivity|].
  split.
  - rewrite <- formatDigits_nil.
    split; intro H.
    + apply (f_equal list_ascii_of_string) in H.
      rewrite list_ascii_of_string_of_list_ascii in H. exact H.
    + rewrite H. reflexivity.
  - rewrite string_length_chars. apply formatDigits_length.
Qed.

End PhoneNumber.
